(** * hermes-messaging-service: access-control store and HTTP handlers

    A shallow embedding of the two Go source files of the service:

    - package [models] (the MongoDB abstraction: [AddGroupConversation],
      [AddProfileACL], [AuthorizePublishing], [UpdateProfilesWithGroupACL],
      [UpdatePassHash]);
    - package [router] (the handlers [AddVerneMQACL], [AddGroupConversation],
      [GetMappingForUsers]).

    Stateful code is written with explicit state passing: every method of
    [*MongoDB] takes the database and returns the database it leaves behind
    together with its Go [error] result ([None] is [nil]).  Log output
    ([log.Println], [fmt.Println]) changes no state the handlers read and is
    left out. *)

From stdpp Require Import base strings list.
From Stdlib Require Import Lia.

Open Scope string_scope.

(** ** Go errors *)

(** The status codes of [logruswrapper] the handlers use.  They are constants
    of an external package; the embedding keeps them apart by name. *)
Inductive Code :=
| CodeSuccess
| CodeInvalidToken
| CodeInvalidJSON
| CodeUpdated
| CodeAlreadyExists.

(** A value of Go's [error] interface, as far as the two files can tell the
    values apart. *)
Inductive error :=
| errors_New (code : Code)            (* errors.New(logruswrapper.CodeX) *)
| DuplicateKey (client_id : string)   (* the server's E11000 write error *)
| ExternalError (msg : string).       (* any other error of a collaborator *)

#[global] Instance Code_eq_dec : EqDecision Code.
Proof. solve_decision. Defined.

#[global] Instance error_eq_dec : EqDecision error.
Proof. solve_decision. Defined.

(** ** Package models *)

Module models.

(** An element of a [publish_acl] / [subscribe_acl] array.  The source pushes
    two shapes: a plain string ([AuthorizePublishing]) and a sub-document
    [{pattern: s}] ([UpdateProfilesWithGroupACL]). *)
Inductive BsonValue :=
| BString (s : string)
| BPattern (pattern : string).

#[global] Instance BsonValue_eq_dec : EqDecision BsonValue.
Proof. solve_decision. Defined.

(** Modelled from the spec: the struct [VerneMQACL] is declared in a file of
    package [models] that is not among the sources.  The fields are the ones
    the update filters and operators of this file name ([client_id],
    [passhash], [publish_acl], [subscribe_acl]) and the ACLRecord of the
    specification. *)
Record VerneMQACL := {
  ClientID : string;
  Username : string;
  Passhash : string;
  PublishACL : list BsonValue;
  SubscribeACL : list BsonValue
}.

(** Modelled from the spec: the struct [GroupConversation] is declared
    outside the sources; the fields are the ones the sources read
    ([GroupConversationID], [Members]) and the name it is built from. *)
Record GroupConversation := {
  GroupConversationID : string;
  Name : string;
  Members : list string
}.

(** *** The document store behind the driver

    The part of the update language the sources use.  An update document is
    an ordered list of elements, as [bson.Document] is: [NewDocument] keeps
    every element it is given, also two with the same key [$push]. *)
Inductive UpdateElem :=
| Push_publish_acl (v : BsonValue)     (* {$push: {publish_acl: v}} *)
| Push_subscribe_acl (v : BsonValue)   (* {$push: {subscribe_acl: v}} *)
| Set_passhash (h : string).           (* {$set: {passhash: h}} *)

(** The calls the methods make on the driver. *)
Inductive DriverCall :=
| VerneMQACL_InsertOne (doc : VerneMQACL)
| GroupConversation_InsertOne (doc : GroupConversation)
| VerneMQACL_UpdateOne (client_id : string) (update : list UpdateElem).

(** The database as the methods see it through [*MongoDB].

    - the two collections, documents in insertion order;
    - [UniqueClientID]: whether the deployment declares a unique index on
      [client_id] of [vmq_acl_auth] ([NewMongoDB] only takes references to
      the collections and creates no index);
    - [Faults]: what the connection has in store for the next driver calls,
      [Some e] for a call that fails with [e] before it reaches the
      collection; when the list is used up every call goes through;
    - [Calls]: the driver calls issued so far, oldest first. *)
Record MongoDB := {
  VerneMQACLCollection : list VerneMQACL;
  GroupConversationCollection : list GroupConversation;
  UniqueClientID : bool;
  Faults : list (option error);
  Calls : list DriverCall
}.

(** Every driver call is recorded and takes the next scheduled fault. *)
Definition issue (c : DriverCall) (db : MongoDB) : MongoDB * option error :=
  let fault := match Faults db with f :: _ => f | [] => None end in
  ({| VerneMQACLCollection := VerneMQACLCollection db;
      GroupConversationCollection := GroupConversationCollection db;
      UniqueClientID := UniqueClientID db;
      Faults := tail (Faults db);
      Calls := Calls db ++ [c] |}, fault).

Definition with_acls (db : MongoDB) (docs : list VerneMQACL) : MongoDB :=
  {| VerneMQACLCollection := docs;
     GroupConversationCollection := GroupConversationCollection db;
     UniqueClientID := UniqueClientID db;
     Faults := Faults db;
     Calls := Calls db |}.

Definition with_groups (db : MongoDB) (docs : list GroupConversation) : MongoDB :=
  {| VerneMQACLCollection := VerneMQACLCollection db;
     GroupConversationCollection := docs;
     UniqueClientID := UniqueClientID db;
     Faults := Faults db;
     Calls := Calls db |}.

Definition has_client (client_id : string) (docs : list VerneMQACL) : bool :=
  existsb (fun d => String.eqb (ClientID d) client_id) docs.

(** [VerneMQACLCollection.InsertOne]: the driver gives the document a new
    [_id], so the only index that can reject it is the one on [client_id]. *)
Definition VerneMQACLCollection_InsertOne (db : MongoDB) (doc : VerneMQACL)
  : MongoDB * option error :=
  let '(db1, fault) := issue (VerneMQACL_InsertOne doc) db in
  match fault with
  | Some e => (db1, Some e)
  | None =>
      if UniqueClientID db1 && has_client (ClientID doc) (VerneMQACLCollection db1)
      then (db1, Some (DuplicateKey (ClientID doc)))
      else (with_acls db1 (VerneMQACLCollection db1 ++ [doc]), None)
  end.

(** [GroupConversationCollection.InsertOne]. *)
Definition GroupConversationCollection_InsertOne (db : MongoDB) (doc : GroupConversation)
  : MongoDB * option error :=
  let '(db1, fault) := issue (GroupConversation_InsertOne doc) db in
  match fault with
  | Some e => (db1, Some e)
  | None => (with_groups db1 (GroupConversationCollection db1 ++ [doc]), None)
  end.

Definition apply_elem (d : VerneMQACL) (u : UpdateElem) : VerneMQACL :=
  match u with
  | Push_publish_acl v =>
      {| ClientID := ClientID d; Username := Username d; Passhash := Passhash d;
         PublishACL := PublishACL d ++ [v]; SubscribeACL := SubscribeACL d |}
  | Push_subscribe_acl v =>
      {| ClientID := ClientID d; Username := Username d; Passhash := Passhash d;
         PublishACL := PublishACL d; SubscribeACL := SubscribeACL d ++ [v] |}
  | Set_passhash h =>
      {| ClientID := ClientID d; Username := Username d; Passhash := h;
         PublishACL := PublishACL d; SubscribeACL := SubscribeACL d |}
  end.

(** The server applies every operator element of the update document. *)
Definition apply_update (update : list UpdateElem) (d : VerneMQACL) : VerneMQACL :=
  fold_left apply_elem update d.

(** The first document the filter [{client_id: id}] matches is updated; with
    no match nothing is. *)
Fixpoint update_first (client_id : string) (update : list UpdateElem)
    (docs : list VerneMQACL) : list VerneMQACL :=
  match docs with
  | [] => []
  | d :: ds =>
      if String.eqb (ClientID d) client_id
      then apply_update update d :: ds
      else d :: update_first client_id update ds
  end.

(** [VerneMQACLCollection.UpdateOne] with the filter [{client_id: id}] and no
    upsert option: a filter that matches nothing is no error. *)
Definition VerneMQACLCollection_UpdateOne (db : MongoDB) (client_id : string)
    (update : list UpdateElem) : MongoDB * option error :=
  let '(db1, fault) := issue (VerneMQACL_UpdateOne client_id update) db in
  match fault with
  | Some e => (db1, Some e)
  | None => (with_acls db1 (update_first client_id update (VerneMQACLCollection db1)), None)
  end.

(** [bson.Marshal] of a struct value; a struct of strings and slices has no
    failing case, the error branch of the callers is kept all the same. *)
Definition bson_Marshal {A : Type} (v : A) : A + error := inl v.

(** *** The methods of [*MongoDB] *)

Definition AddGroupConversation (mongoDB : MongoDB) (groupConversation : GroupConversation)
  : MongoDB * option error :=
  match bson_Marshal groupConversation with
  | inr err => (mongoDB, Some err)
  | inl doc =>
      let '(mongoDB', err) := GroupConversationCollection_InsertOne mongoDB doc in
      match err with
      | Some e => (mongoDB', Some e)
      | None => (mongoDB', None)
      end
  end.

Definition AddProfileACL (mongoDB : MongoDB) (verneMQACL : VerneMQACL)
  : MongoDB * option error :=
  match bson_Marshal verneMQACL with
  | inr err => (mongoDB, Some err)
  | inl doc =>
      let '(mongoDB', err) := VerneMQACLCollection_InsertOne mongoDB doc in
      match err with
      | Some e => (mongoDB', Some e)
      | None => (mongoDB', None)
      end
  end.

Definition AuthorizePublishing (mongoDB : MongoDB) (userID topic : string)
  : MongoDB * option error :=
  let '(mongoDB', err) :=
    VerneMQACLCollection_UpdateOne mongoDB userID [Push_publish_acl (BString topic)] in
  match err with
  | Some e => (mongoDB', Some e)
  | None => (mongoDB', None)
  end.

Definition UpdatePassHash (mongoDB : MongoDB) (userID newPasshash : string)
  : MongoDB * option error :=
  let '(mongoDB', err) :=
    VerneMQACLCollection_UpdateOne mongoDB userID [Set_passhash newPasshash] in
  match err with
  | Some e => (mongoDB', Some e)
  | None => (mongoDB', None)
  end.

Section TopicPath.

(** The constant [GroupConversationTopicPath] is declared outside the
    sources. *)
Variable GroupConversationTopicPath : string.

(** The update document one member of a group receives. *)
Definition group_update (groupID userID : string) : list UpdateElem :=
  [ Push_publish_acl
      (BPattern (GroupConversationTopicPath +:+ groupID +:+ "/" +:+ userID));
    Push_subscribe_acl
      (BPattern (GroupConversationTopicPath +:+ groupID +:+ "/+")) ].

(** The body of [UpdateProfilesWithGroupACL] from member [userID] on. *)
Fixpoint range_Members (mongoDB : MongoDB) (groupID : string) (members : list string)
  : MongoDB * option error :=
  match members with
  | [] => (mongoDB, None)
  | userID :: rest =>
      let '(mongoDB', err) :=
        VerneMQACLCollection_UpdateOne mongoDB userID (group_update groupID userID) in
      match err with
      | Some e => (mongoDB', Some e)
      | None => range_Members mongoDB' groupID rest
      end
  end.

Definition UpdateProfilesWithGroupACL (mongoDB : MongoDB)
    (groupConversation : GroupConversation) : MongoDB * option error :=
  range_Members mongoDB (GroupConversationID groupConversation)
    (Members groupConversation).

End TopicPath.

(** Modelled from the spec: the constructor [NewVerneMQACL] is declared
    outside the sources.  It builds the record of a client from the three
    values of its MQTT authentication and the default ACLs, which are taken
    as they come. *)
Definition NewVerneMQACL (defaultACL : string -> list BsonValue * list BsonValue)
    (clientID username password : string) : VerneMQACL :=
  {| ClientID := clientID; Username := username; Passhash := password;
     PublishACL := fst (defaultACL clientID);
     SubscribeACL := snd (defaultACL clientID) |}.

(** Modelled from the spec: the constructor [NewGroupConversation] is
    declared outside the sources.  It keeps the name and the members it is
    given; the identifier it chooses is taken as it comes. *)
Definition NewGroupConversation (newID : string -> list string -> string)
    (name : string) (members : list string) : GroupConversation :=
  {| GroupConversationID := newID name members; Name := name; Members := members |}.

(** Modelled from the spec: the identity cache behind [env.Redis], declared
    outside the sources.  [Exists] and [HGet] return a value and an error,
    the bytes of [HGet] read as the string the handlers convert them to. *)
Record RedisInterface := {
  Exists : string -> bool * option error;
  HGet : string -> string -> string * option error
}.

(** [models.Env]: the handles every handler receives. *)
Record Env := {
  Redis : RedisInterface;
  Mongo : MongoDB
}.

Definition with_Mongo (env : Env) (db : MongoDB) : Env :=
  {| Redis := Redis env; Mongo := db |}.

(** [models.Mapping]. *)
Record Mapping := {
  OriginalUserID : string;
  InternalWaveUserID : string
}.

End models.

(** ** Go slices of strings

    A slice is a window on a backing array; two slices on one array see each
    other's writes.  [AddGroupConversation] filters the members of the
    request in place, so the arrays are kept in a store. *)

Module slice.

Record Slice := {
  ptr : nat;   (* the backing array *)
  len : nat;
  cap : nat
}.

Abbreviation Heap := (list (list string)).

(** [s[i]], for an index below the length (the range of a well-formed slice
    asks for no other). *)
Definition index (h : Heap) (s : Slice) (i : nat) : string :=
  default EmptyString (h !! ptr s ≫= fun arr : list string => arr !! i).

(** [s[:0]]: same array, same capacity, no element. *)
Definition reslice0 (s : Slice) : Slice :=
  {| ptr := ptr s; len := 0; cap := cap s |}.

(** The capacity the runtime gives a slice that has to grow; the elements
    of the slice do not depend on it. *)
Definition growslice (oldcap : nat) : nat := S (2 * oldcap).

(** [append(s, x)]: within the capacity the element is written into the
    backing array of [s]; beyond it the elements move to a new array. *)
Definition append (h : Heap) (s : Slice) (x : string) : Heap * Slice :=
  if Nat.ltb (len s) (cap s) then
    (alter (fun arr : list string => <[len s := x]> arr) (ptr s) h,
     {| ptr := ptr s; len := S (len s); cap := cap s |})
  else
    let old := take (len s) (default [] (h !! ptr s)) in
    let newcap := growslice (cap s) in
    ((h ++ [old ++ x :: replicate (newcap - S (len s)) EmptyString])%list,
     {| ptr := length h; len := S (len s); cap := newcap |}).

(** The elements of a slice, as [range] or [bson.Marshal] read them. *)
Definition elements (h : Heap) (s : Slice) : list string :=
  take (len s) (default [] (h !! ptr s)).

(** A slice the runtime can have produced; a nil slice is one of capacity 0
    on an empty array. *)
Definition wf (h : Heap) (s : Slice) : Prop :=
  exists arr : list string, h !! ptr s = Some arr /\ length arr = cap s /\ len s <= cap s.

(** A new slice with the given elements and spare capacity. *)
Definition make (h : Heap) (l : list string) (spare : nat) : Heap * Slice :=
  ((h ++ [l ++ replicate spare EmptyString])%list,
   {| ptr := length h; len := length l; cap := length l + spare |}).

End slice.

(** ** Package auth (its declarations) *)

Module auth.

(** Modelled from the spec: the struct the authentication check returns, the
    ClientIdentity of the specification; declared outside the sources. *)
Record MQTTAuthInfos := {
  ClientID : string;
  Username : string;
  Password : string
}.

(** The four results of [CheckAuthentication]. *)
Record Return := {
  infos : MQTTAuthInfos;
  wasCached : bool;
  wasTokenUpdated : bool;
  err : option error
}.

(** The three outcomes of the specification, read off the two flags the way
    [AddVerneMQACL] tests them. *)
Inductive Outcome := Failed | Updated | Cached | Fresh.

Definition outcome (ret : Return) : Outcome :=
  match err ret with
  | Some _ => Failed
  | None => if wasTokenUpdated ret then Updated
            else if wasCached ret then Cached else Fresh
  end.

End auth.

(** ** Package utils (its declarations) *)

Module utils.

(** The decoded body of a group creation request.  [Members] is a slice: the
    handler filters it in place. *)
Record GroupConversationBody := {
  Name : string;
  Members : slice.Slice
}.

(** The decoded body of a mapping request; the handler only reads it. *)
Record MappingRequestBody := {
  UserIDs : list string
}.

End utils.

(** ** Package router *)

Module router.

(** What a handler reads of [*http.Request]: the [token] header and the body
    as [json.Decode] reads it, [None] when decoding fails. *)
Record Request (B : Type) := {
  Header_token : string;
  Body : option B
}.
Arguments Header_token {B} _.
Arguments Body {B} _.

(** The payload of a response. *)
Inductive Payload :=
| PNil
| PString (s : string)
| PMappings (l : list models.Mapping).

(** [logruswrapper.NewEntry(service, path, code)]. *)
Record Entry := {
  Service : string;
  Path : string;
  EntryCode : Code
}.

Definition NewEntry (service path : string) (code : Code) : Entry :=
  {| Service := service; Path := path; EntryCode := code |}.

(** [http.ResponseWriter]: the responses written so far. *)
Abbreviation ResponseWriter := (list (Payload * Entry)).

Definition WriteResponse (payload : Payload) (log : Entry) (w : ResponseWriter)
  : ResponseWriter := (w ++ [(payload, log)])%list.

(** What a handler leaves behind: the environment, the writer and its Go
    [error] result. *)
Abbreviation Result := (models.Env * ResponseWriter * option error)%type.

Section Handlers.

(** Declarations of the repository outside the sources, taken as they
    come: the format check of package [checkers], the authentication of
    package [auth] (which may write to the cache and the store, so it
    returns the environment too), the default ACLs of a new record, the
    identifier of a new group and the topic path of group conversations. *)
Variable IsTokenValid : models.Env -> string -> bool * option error.
Variable CheckAuthentication : models.Env -> string -> auth.Return * models.Env.
Variable defaultACL : string -> list models.BsonValue * list models.BsonValue.
Variable newID : string -> list string -> string.
Variable GroupConversationTopicPath : string.

(** [AddVerneMQACL] from the authentication check on. *)
Definition AddVerneMQACL_authenticated (env : models.Env) (w : ResponseWriter)
    (token : string) : Result :=
  let '(ret, env) := CheckAuthentication env token in
  let MQTTAuthInfos := auth.infos ret in
  match auth.err ret with
  | Some _ => (env, w, Some (errors_New CodeInvalidToken))
  | None =>
      if auth.wasTokenUpdated ret then (env, w, Some (errors_New CodeUpdated))
      else if auth.wasCached ret then (env, w, Some (errors_New CodeAlreadyExists))
      else
        let verneMQACL :=
          models.NewVerneMQACL defaultACL (auth.ClientID MQTTAuthInfos)
            (auth.Username MQTTAuthInfos) (auth.Password MQTTAuthInfos) in
        let '(db, err) := models.AddProfileACL (models.Mongo env) verneMQACL in
        let env := models.with_Mongo env db in
        match err with
        | Some _ => (env, w, Some (errors_New CodeInvalidToken))
        | None =>
            let log := NewEntry "MessagingService" "/helloworld" CodeSuccess in
            (env, WriteResponse (PString (auth.ClientID MQTTAuthInfos)) log w, None)
        end
  end.

Definition AddVerneMQACL {B : Type} (env : models.Env) (w : ResponseWriter)
    (r : Request B) : Result :=
  let token := Header_token r in
  match IsTokenValid env token with
  | (_, Some err) => (env, w, Some err)
  | (tokenHasValidFormat, None) =>
      if negb tokenHasValidFormat then (env, w, Some (errors_New CodeInvalidToken))
      else AddVerneMQACL_authenticated env w token
  end.

(** The loop over [reqBody.Members] of [AddGroupConversation].  [range]
    evaluates the slice once ([members]) and reads element [i] from its
    backing array when iteration [i] starts; [tmp] is a slice on the same
    array, and [append] writes into it. *)
Fixpoint range_Members (redis : models.RedisInterface) (clientID : string)
    (members : slice.Slice) (indices : list nat)
    (h : slice.Heap) (tmp : slice.Slice) : slice.Heap * slice.Slice + error :=
  match indices with
  | [] => inl (h, tmp)
  | i :: rest =>
      let member := slice.index h members i in
      match models.Exists redis ("mapping:" +:+ member) with
      | (_, Some _) => inr (errors_New CodeInvalidJSON)
      | (doesExist, None) =>
          if doesExist then
            match models.HGet redis ("mapping:" +:+ member) "internalWaveUserID" with
            | (_, Some _) => inr (errors_New CodeInvalidJSON)
            | (internalWaveUserID, None) =>
                if negb (String.eqb internalWaveUserID clientID) then
                  let '(h, tmp) := slice.append h tmp internalWaveUserID in
                  range_Members redis clientID members rest h tmp
                else range_Members redis clientID members rest h tmp
            end
          else range_Members redis clientID members rest h tmp
      end
  end.

(** The group conversation [AddGroupConversation] builds from the decoded
    body, or the error the member loop returns. *)
Definition build_group (redis : models.RedisInterface) (clientID : string)
    (h : slice.Heap) (reqBody : utils.GroupConversationBody)
  : models.GroupConversation + error :=
  let tmp := slice.reslice0 (utils.Members reqBody) in
  match range_Members redis clientID (utils.Members reqBody)
          (seq 0 (slice.len (utils.Members reqBody))) h tmp with
  | inr e => inr e
  | inl (h, tmp) =>
      (* reqBody.Members = tmp *)
      let '(h, members) := slice.append h tmp clientID in
      inl (models.NewGroupConversation newID (utils.Name reqBody)
             (slice.elements h members))
  end.

Definition AddGroupConversation (env : models.Env) (w : ResponseWriter)
    (r : Request (slice.Heap * utils.GroupConversationBody)) : Result :=
  let token := Header_token r in
  match IsTokenValid env token with
  | (_, Some err) => (env, w, Some err)
  | (tokenHasValidFormat, None) =>
      if negb tokenHasValidFormat then (env, w, Some (errors_New CodeInvalidToken))
      else
        let '(ret, env) := CheckAuthentication env token in
        let MQTTAuthInfos := auth.infos ret in
        match auth.err ret with
        | Some _ => (env, w, Some (errors_New CodeInvalidToken))
        | None =>
            match Body r with
            | None => (env, w, Some (errors_New CodeInvalidJSON))
            | Some (h, reqBody) =>
                match build_group (models.Redis env) (auth.ClientID MQTTAuthInfos)
                        h reqBody with
                | inr e => (env, w, Some e)
                | inl groupConv =>
                    (* err = AddGroupConversation; err = UpdateProfilesWithGroupACL *)
                    let '(db, _) :=
                      models.AddGroupConversation (models.Mongo env) groupConv in
                    let '(db, err) :=
                      models.UpdateProfilesWithGroupACL GroupConversationTopicPath
                        db groupConv in
                    let env := models.with_Mongo env db in
                    match err with
                    | Some _ => (env, w, Some (errors_New CodeInvalidToken))
                    | None =>
                        let log :=
                          NewEntry "MessagingService" "/helloworld" CodeSuccess in
                        (env, WriteResponse PNil log w, None)
                    end
                end
            end
        end
  end.

(** The loop over [reqBody.UserIDs] of [GetMappingForUsers]; the error of
    [HGet] is discarded. *)
Fixpoint range_UserIDs (redis : models.RedisInterface) (userIDs : list string)
    (mappings : list models.Mapping) : list models.Mapping :=
  match userIDs with
  | [] => mappings
  | userID :: rest =>
      let '(internalWaveUserID, _) :=
        models.HGet redis ("mapping:" +:+ userID) "internalWaveUserID" in
      if negb (String.eqb internalWaveUserID EmptyString) then
        range_UserIDs redis rest
          (mappings ++ [ {| models.OriginalUserID := userID;
                            models.InternalWaveUserID := internalWaveUserID |} ])
      else range_UserIDs redis rest mappings
  end.

Definition GetMappingForUsers (env : models.Env) (w : ResponseWriter)
    (r : Request utils.MappingRequestBody) : Result :=
  let token := Header_token r in
  match IsTokenValid env token with
  | (_, Some err) => (env, w, Some err)
  | (tokenHasValidFormat, None) =>
      if negb tokenHasValidFormat then (env, w, Some (errors_New CodeInvalidToken))
      else
        let '(ret, env) := CheckAuthentication env token in
        match auth.err ret with
        | Some _ => (env, w, Some (errors_New CodeInvalidToken))
        | None =>
            match Body r with
            | None => (env, w, Some (errors_New CodeInvalidJSON))
            | Some reqBody =>
                let mappings :=
                  range_UserIDs (models.Redis env) (utils.UserIDs reqBody) [] in
                let log :=
                  NewEntry "MessagingService" "/profiles/mappings" CodeSuccess in
                (env, WriteResponse (PMappings mappings) log w, None)
            end
        end
  end.

End Handlers.

(** [Handler]: the type of the handlers [CustomHandle] wraps. *)
Definition Handler (B : Type) : Type :=
  models.Env -> ResponseWriter -> Request B -> Result.

(** What the client of a wrapped chain receives: the responses the handlers
    wrote and, for a handler that fails, the response of the wrapper, with
    no payload and an entry whose code is the message of the error. *)
Inductive Response :=
| Handled (payload : Payload) (log : Entry)
| Rejected (service path : string) (err : error).

Definition handled (w : ResponseWriter) : list Response :=
  map (fun x : Payload * Entry => Handled x.1 x.2) w.

(** [CustomHandle]: the handlers run in order on one environment and one
    writer; the first error ends the chain with the response of the
    wrapper. *)
Fixpoint CustomHandle {B : Type} (env : models.Env) (handlers : list (Handler B))
    (w : ResponseWriter) (r : Request B) : models.Env * list Response :=
  match handlers with
  | [] => (env, handled w)
  | h :: rest =>
      let '(env, w, err) := h env w r in
      match err with
      | Some e => (env, (handled w ++ [Rejected "MessagingService" "/helloworld" e])%list)
      | None => CustomHandle env rest w r
      end
  end.

End router.

(** ** Vocabulary of the statements *)

(** The next [n] driver calls reach the collections. *)
Definition available (n : nat) (db : models.MongoDB) : Prop :=
  Forall (fun f : option error => f = None) (take n (models.Faults db)).

(** The number of ACL records of a client. *)
Definition count_client (client_id : string) (docs : list models.VerneMQACL) : nat :=
  length (List.filter (fun d => String.eqb (models.ClientID d) client_id) docs).

(** The record an update with the filter [{client_id: id}] applies to. *)
Definition find_client (client_id : string) (docs : list models.VerneMQACL)
  : option models.VerneMQACL :=
  List.find (fun d => String.eqb (models.ClientID d) client_id) docs.

(** The driver calls issued between two states of the database. *)
Definition issued (before after : models.MongoDB) : list models.DriverCall :=
  drop (length (models.Calls before)) (models.Calls after).

(** How often a client occurs in a member list. *)
Definition occurrences (userID : string) (members : list string) : nat :=
  length (List.filter (String.eqb userID) members).

(** The driver calls of the fan-out, one for each member. *)
Definition group_calls (path groupID : string) (members : list string)
  : list models.DriverCall :=
  map (fun userID =>
         models.VerneMQACL_UpdateOne userID (models.group_update path groupID userID))
      members.

(** The collection after every member received its update, in order. *)
Definition fan_out (path groupID : string) (members : list string)
    (docs : list models.VerneMQACL) : list models.VerneMQACL :=
  fold_left (fun docs userID =>
               models.update_first userID (models.group_update path groupID userID) docs)
            members docs.

(** What [k] rounds of the group update leave in the record of a member. *)
Definition granted (path groupID userID : string) (k : nat) (d : models.VerneMQACL)
  : models.VerneMQACL :=
  {| models.ClientID := models.ClientID d;
     models.Username := models.Username d;
     models.Passhash := models.Passhash d;
     models.PublishACL :=
       models.PublishACL d
       ++ replicate k (models.BPattern (path +:+ groupID +:+ "/" +:+ userID));
     models.SubscribeACL :=
       models.SubscribeACL d
       ++ replicate k (models.BPattern (path +:+ groupID +:+ "/+")) |}.

(** *** The loops on plain lists *)

(** The member loop of [AddGroupConversation] on a plain list, without the
    slices: the clientIDs the known handles resolve to, the requester's left
    out, or the error of the first failing lookup. *)
Fixpoint resolved_members (redis : models.RedisInterface) (clientID : string)
    (handles : list string) : list string + error :=
  match handles with
  | [] => inl []
  | member :: rest =>
      match models.Exists redis ("mapping:" +:+ member) with
      | (_, Some _) => inr (errors_New CodeInvalidJSON)
      | (false, None) => resolved_members redis clientID rest
      | (true, None) =>
          match models.HGet redis ("mapping:" +:+ member) "internalWaveUserID" with
          | (_, Some _) => inr (errors_New CodeInvalidJSON)
          | (v, None) =>
              if String.eqb v clientID then resolved_members redis clientID rest
              else match resolved_members redis clientID rest with
                   | inl l => inl (v :: l)
                   | inr e => inr e
                   end
          end
      end
  end.

(** The entry [GetMappingForUsers] answers for one userID: the bytes the
    lookup returns when they are not empty, whatever error comes with them. *)
Definition nonempty_mapping (redis : models.RedisInterface) (userID : string)
  : option models.Mapping :=
  let v := (models.HGet redis ("mapping:" +:+ userID) "internalWaveUserID").1 in
  if String.eqb v EmptyString then None
  else Some {| models.OriginalUserID := userID; models.InternalWaveUserID := v |}.

(** The entry of a userID whose lookup succeeds with a nonempty value. *)
Definition successful_mapping (redis : models.RedisInterface) (userID : string)
  : option models.Mapping :=
  match models.HGet redis ("mapping:" +:+ userID) "internalWaveUserID" with
  | (v, None) =>
      if String.eqb v EmptyString then None
      else Some {| models.OriginalUserID := userID; models.InternalWaveUserID := v |}
  | (_, Some _) => None
  end.

(** Go's convention for a failed call: no bytes come with the error. *)
Definition failed_lookup_is_empty (redis : models.RedisInterface) : Prop :=
  forall (key field v : string) (e : error),
    models.HGet redis key field = (v, Some e) -> v = EmptyString.

(** The members a cache without failing lookups resolves the handles to:
    the mapping of every handle it knows, in order, the requester's left
    out. *)
Definition known_members (redis : models.RedisInterface) (clientID : string)
    (handles : list string) : list string :=
  List.filter (fun v => negb (String.eqb v clientID))
    (omap (fun member =>
             if (models.Exists redis ("mapping:" +:+ member)).1
             then Some (models.HGet redis ("mapping:" +:+ member) "internalWaveUserID").1
             else None)
          handles).

(** A handler writes one response, with the success code, when it returns
    no error, and none when it returns one. *)
Definition responds_iff_nil (w : router.ResponseWriter) (res : router.Result) : Prop :=
  (res.2 = None /\
   exists payload service path,
     res.1.2 = (w ++ [(payload, router.NewEntry service path CodeSuccess)])%list) \/
  ((exists e, res.2 = Some e) /\ res.1.2 = w).

(** Two states of the store with the same records, client by client: the
    same sequence of [client_id]s, the same groups, the same index. *)
Definition same_clients (db db' : models.MongoDB) : Prop :=
  map models.ClientID (models.VerneMQACLCollection db')
  = map models.ClientID (models.VerneMQACLCollection db) /\
  models.GroupConversationCollection db' = models.GroupConversationCollection db /\
  models.UniqueClientID db' = models.UniqueClientID db.


(** The lookup of a handle fails: [Exists] returns an error, or it finds
    the handle and [HGet] returns one. *)
Definition lookup_fails (redis : models.RedisInterface) (member : string) : Prop :=
  (exists e, (models.Exists redis ("mapping:" +:+ member)).2 = Some e) \/
  (models.Exists redis ("mapping:" +:+ member) = (true, None) /\
   exists e, (models.HGet redis ("mapping:" +:+ member) "internalWaveUserID").2 = Some e).

(** No lookup of the listed handles fails. *)
Definition lookups_succeed (redis : models.RedisInterface) (handles : list string) : Prop :=
  Forall (fun member => ~ lookup_fails redis member) handles.

(** A request with the given token and body. *)
Definition request {B : Type} (token : string) (body : option B) : router.Request B :=
  {| router.Header_token := token; router.Body := body |}.


(** *** Readings of the claims that fail *)

(** The reading of "two calls of CreateACL with one clientID: success, then
    Conflict, and one record left". *)
Definition second_create_conflicts (db : models.MongoDB) (acl : models.VerneMQACL) : Prop :=
  let r1 := models.AddProfileACL db acl in
  let r2 := models.AddProfileACL r1.1 acl in
  r1.2 = None /\
  r2.2 = Some (DuplicateKey (models.ClientID acl)) /\
  count_client (models.ClientID acl) (models.VerneMQACLCollection r2.1) = 1.

(** The reading of "the member list of the group a request creates has no
    duplicates": every group document the handler hands to the store. *)
Definition members_without_duplicates (before after : models.MongoDB) : Prop :=
  forall g : models.GroupConversation,
    models.GroupConversation_InsertOne g ∈ issued before after ->
    NoDup (models.Members g).

(** The reading of "a Conflict of the seeding is no caller-visible failure":
    when the insert is rejected as a duplicate, the handler does not return
    the invalid-credential error. *)
Definition conflict_is_not_surfaced (insert_err handler_err : option error) : Prop :=
  (exists c, insert_err = Some (DuplicateKey c)) ->
  handler_err <> Some (errors_New CodeInvalidToken).

(** *** Inputs of the examples *)

(** A store as [NewMongoDB] finds it on a new deployment: empty collections,
    no index of its own, a working connection. *)
Definition emptyDB (unique : bool) : models.MongoDB :=
  {| models.VerneMQACLCollection := [];
     models.GroupConversationCollection := [];
     models.UniqueClientID := unique;
     models.Faults := [];
     models.Calls := [] |}.

(** A deployment without default ACLs. *)
Definition noDefaultACL (clientID : string)
  : list models.BsonValue * list models.BsonValue := ([], []).

(** The record of client c1. *)
Definition acl_c1 : models.VerneMQACL :=
  models.NewVerneMQACL noDefaultACL "c1" "alice" "hash1".

(** A store with the record of client c1. *)
Definition db_c1 : models.MongoDB :=
  (models.AddProfileACL (emptyDB true) acl_c1).1.

(** A cache that holds the mapping of the listed handles and answers every
    lookup; a field that is not there comes back as no bytes and an error. *)
Definition cache_of (mappings : list (string * string)) : models.RedisInterface :=
  let find key :=
    List.find (fun m : string * string => String.eqb ("mapping:" +:+ m.1) key) mappings in
  {| models.Exists := fun key =>
       (match find key with Some _ => true | None => false end, None);
     models.HGet := fun key field =>
       match find key with
       | Some m => if String.eqb field "internalWaveUserID" then (m.2, None)
                   else (EmptyString, Some (ExternalError "nil returned"))
       | None => (EmptyString, Some (ExternalError "nil returned"))
       end |}.

(** An empty store without an index of its own, behind a cache with the
    listed mappings, on a connection with the given faults. *)
Definition env_of (mappings : list (string * string)) (faults : list (option error))
  : models.Env :=
  {| models.Redis := cache_of mappings;
     models.Mongo :=
       {| models.VerneMQACLCollection := [];
          models.GroupConversationCollection := [];
          models.UniqueClientID := false;
          models.Faults := faults;
          models.Calls := [] |} |}.

(** An environment whose store has a unique index on [client_id] and holds
    the record of client c1. *)
Definition env_c1 : models.Env :=
  {| models.Redis := cache_of []; models.Mongo := db_c1 |}.

(** A format check that accepts every token, and an authentication that
    verifies every token as a new one of the given client and leaves the
    environment alone. *)
Definition anyToken (env : models.Env) (token : string) : bool * option error :=
  (true, None).

Definition freshAs (clientID : string) (env : models.Env) (token : string)
  : auth.Return * models.Env :=
  ({| auth.infos := {| auth.ClientID := clientID; auth.Username := "alice";
                       auth.Password := "hash1" |};
      auth.wasCached := false; auth.wasTokenUpdated := false; auth.err := None |},
   env).

(** The identifier of a new group, for the examples. *)
Definition idOfName (name : string) (members : list string) : string := "g-" +:+ name.

(** A request that carries a token and no body. *)
Definition token_request (token : string) : router.Request unit :=
  {| router.Header_token := token; router.Body := None |}.

(** A request for a group: the decoded body with its member slice on a new
    array without spare capacity. *)
Definition group_request (token name : string) (handles : list string)
  : router.Request (slice.Heap * utils.GroupConversationBody) :=
  let '(h, members) := slice.make [] handles 0 in
  {| router.Header_token := token;
     router.Body := Some (h, {| utils.Name := name; utils.Members := members |}) |}.

(** A request for the mappings of the listed userIDs. *)
Definition mapping_request (token : string) (userIDs : list string)
  : router.Request utils.MappingRequestBody :=
  {| router.Header_token := token;
     router.Body := Some {| utils.UserIDs := userIDs |} |}.

(** Client u1 asks for the group "team" with the given candidate handles. *)
Definition create_group (env : models.Env) (handles : list string) : router.Result :=
  router.AddGroupConversation anyToken (freshAs "u1") idOfName "groups/" env []
    (group_request "tok" "team" handles).

(** The cache of the listed mappings on which the lookup of one handle
    fails. *)
Definition cache_failing_on (member : string) (mappings : list (string * string))
  : models.RedisInterface :=
  {| models.Exists := fun key =>
       if String.eqb key ("mapping:" +:+ member)
       then (false, Some (ExternalError "i/o timeout"))
       else models.Exists (cache_of mappings) key;
     models.HGet := models.HGet (cache_of mappings) |}.

(** An authentication that verifies every token as one of the given client,
    with the given flags. *)
Definition flaggedAs (cached updated : bool) (clientID : string)
    (env : models.Env) (token : string) : auth.Return * models.Env :=
  ({| auth.infos := {| auth.ClientID := clientID; auth.Username := "alice";
                       auth.Password := "hash1" |};
      auth.wasCached := cached; auth.wasTokenUpdated := updated; auth.err := None |},
   env).

(** ** The access-control store *)

Section StoreFacts.

Implicit Types (db : models.MongoDB) (docs : list models.VerneMQACL).

Lemma count_client_app c docs1 docs2 :
  count_client c (docs1 ++ docs2) = count_client c docs1 + count_client c docs2.
Proof.
  unfold count_client. now rewrite List.filter_app, length_app.
Qed.

Lemma has_client_false_count c docs :
  models.has_client c docs = false -> count_client c docs = 0.
Proof.
  unfold models.has_client, count_client.
  induction docs as [|d docs IH]; simpl; [reflexivity|].
  destruct (String.eqb (models.ClientID d) c); simpl; [discriminate|exact IH].
Qed.

Lemma has_client_find c docs :
  models.has_client c docs = false <-> find_client c docs = None.
Proof.
  unfold models.has_client, find_client.
  induction docs as [|d docs IH]; simpl; [tauto|].
  destruct (String.eqb (models.ClientID d) c); simpl; [split; discriminate|exact IH].
Qed.

Lemma update_first_absent c u docs :
  models.has_client c docs = false -> models.update_first c u docs = docs.
Proof.
  unfold models.has_client.
  induction docs as [|d docs IH]; simpl; [reflexivity|].
  destruct (String.eqb (models.ClientID d) c); simpl; [discriminate|].
  intros H. now rewrite IH.
Qed.

(** A call on a working connection goes through. *)
Lemma available_issue n db c :
  available (S n) db ->
  (models.issue c db).2 = None /\ available n (models.issue c db).1.
Proof.
  unfold available, models.issue. simpl.
  destruct (models.Faults db) as [|f fs]; simpl.
  - intros _. split; [reflexivity|]. now rewrite take_nil.
  - intros H. apply Forall_cons in H as [-> H]. now split.
Qed.

Lemma available_le n m db : n <= m -> available m db -> available n db.
Proof.
  unfold available. intros Hle H.
  replace n with (n `min` m) by lia.
  rewrite <- take_take. now apply Forall_take.
Qed.

(** [InsertOne] into [vmq_acl_auth] on a working connection. *)
Lemma InsertOne_available n db doc :
  available (S n) db ->
  let r := models.VerneMQACLCollection_InsertOne db doc in
  available n r.1 /\
  models.UniqueClientID r.1 = models.UniqueClientID db /\
  models.GroupConversationCollection r.1 = models.GroupConversationCollection db /\
  models.Calls r.1 = (models.Calls db ++ [models.VerneMQACL_InsertOne doc])%list /\
  if models.UniqueClientID db
     && models.has_client (models.ClientID doc) (models.VerneMQACLCollection db)
  then r.2 = Some (DuplicateKey (models.ClientID doc))
       /\ models.VerneMQACLCollection r.1 = models.VerneMQACLCollection db
  else r.2 = None
       /\ models.VerneMQACLCollection r.1 = (models.VerneMQACLCollection db ++ [doc])%list.
Proof.
  intros Hav.
  destruct (available_issue n db (models.VerneMQACL_InsertOne doc) Hav) as [Hf Hn].
  unfold models.VerneMQACLCollection_InsertOne.
  destruct (models.issue (models.VerneMQACL_InsertOne doc) db) as [db1 fault] eqn:E.
  simpl in Hf, Hn. subst fault.
  assert (Hdb1 : db1 = (models.issue (models.VerneMQACL_InsertOne doc) db).1)
    by now rewrite E.
  unfold models.issue in Hdb1. simpl in Hdb1.
  subst db1. cbn [models.UniqueClientID models.VerneMQACLCollection].
  destruct (models.UniqueClientID db
            && models.has_client (models.ClientID doc) (models.VerneMQACLCollection db));
    cbn; repeat split; exact Hn.
Qed.

(** [UpdateOne] on [vmq_acl_auth] on a working connection. *)
Lemma UpdateOne_available n db c u :
  available (S n) db ->
  let r := models.VerneMQACLCollection_UpdateOne db c u in
  r.2 = None /\
  available n r.1 /\
  models.UniqueClientID r.1 = models.UniqueClientID db /\
  models.GroupConversationCollection r.1 = models.GroupConversationCollection db /\
  models.Calls r.1 = (models.Calls db ++ [models.VerneMQACL_UpdateOne c u])%list /\
  models.VerneMQACLCollection r.1 = models.update_first c u (models.VerneMQACLCollection db).
Proof.
  intros Hav.
  destruct (available_issue n db (models.VerneMQACL_UpdateOne c u) Hav) as [Hf Hn].
  unfold models.VerneMQACLCollection_UpdateOne.
  destruct (models.issue (models.VerneMQACL_UpdateOne c u) db) as [db1 fault] eqn:E.
  simpl in Hf, Hn. subst fault.
  assert (Hdb1 : db1 = (models.issue (models.VerneMQACL_UpdateOne c u) db).1)
    by now rewrite E.
  unfold models.issue in Hdb1. simpl in Hdb1.
  subst db1. cbn. repeat split; exact Hn.
Qed.

(** The methods hand the driver's result on unchanged. *)
Lemma AddProfileACL_InsertOne db acl :
  models.AddProfileACL db acl = models.VerneMQACLCollection_InsertOne db acl.
Proof.
  unfold models.AddProfileACL, models.bson_Marshal.
  destruct (models.VerneMQACLCollection_InsertOne db acl) as [db' [e|]]; reflexivity.
Qed.

Lemma AuthorizePublishing_UpdateOne db userID topic :
  models.AuthorizePublishing db userID topic =
  models.VerneMQACLCollection_UpdateOne db userID
    [models.Push_publish_acl (models.BString topic)].
Proof.
  unfold models.AuthorizePublishing.
  destruct (models.VerneMQACLCollection_UpdateOne _ _ _) as [db' [e|]]; reflexivity.
Qed.

Lemma UpdatePassHash_UpdateOne db userID newPasshash :
  models.UpdatePassHash db userID newPasshash =
  models.VerneMQACLCollection_UpdateOne db userID [models.Set_passhash newPasshash].
Proof.
  unfold models.UpdatePassHash.
  destruct (models.VerneMQACLCollection_UpdateOne _ _ _) as [db' [e|]]; reflexivity.
Qed.

Lemma apply_update_ClientID u d :
  models.ClientID (models.apply_update u d) = models.ClientID d.
Proof.
  unfold models.apply_update. revert d.
  induction u as [|e u IH]; intros d; simpl; [reflexivity|].
  rewrite IH. now destruct e.
Qed.

Lemma find_update_first_same c u docs d :
  find_client c docs = Some d ->
  find_client c (models.update_first c u docs) = Some (models.apply_update u d).
Proof.
  unfold find_client.
  induction docs as [|d0 docs IH]; simpl; [discriminate|].
  destruct (String.eqb (models.ClientID d0) c) eqn:E; simpl.
  - intros [= ->]. now rewrite apply_update_ClientID, E.
  - rewrite E. exact IH.
Qed.

Lemma find_update_first_other c c' u docs :
  c <> c' ->
  find_client c (models.update_first c' u docs) = find_client c docs.
Proof.
  unfold find_client. intros Hne.
  induction docs as [|d0 docs IH]; simpl; [reflexivity|].
  destruct (String.eqb (models.ClientID d0) c') eqn:E; simpl.
  - rewrite apply_update_ClientID.
    apply String.eqb_eq in E.
    destruct (String.eqb (models.ClientID d0) c) eqn:E'; [|reflexivity].
    apply String.eqb_eq in E'. congruence.
  - now rewrite IH.
Qed.

End StoreFacts.

(** *** Creating the record of a client *)

(** C1, as stated, fails: on a collection without a unique index on
    [client_id] the second [AddProfileACL] for client c1 succeeds as the
    first did, and two records are stored. *)
Lemma AddProfileACL_twice_no_conflict :
  ~ second_create_conflicts (emptyDB false) acl_c1.
Proof.
  unfold second_create_conflicts. vm_compute. intros (_ & H & _). discriminate H.
Qed.

(** C1, amended: two calls of [AddProfileACL] with one clientID, on a store
    that has no record of it and a working connection.  The first call
    succeeds.  [AddProfileACL] makes no check of its own: where the
    collection has a unique index on [client_id] the second call returns the
    store's duplicate-key error and one record is kept; where it has none
    the second call succeeds too and two records are kept. *)
Theorem AddProfileACL_twice (db : models.MongoDB) (acl : models.VerneMQACL) :
  models.has_client (models.ClientID acl) (models.VerneMQACLCollection db) = false ->
  available 2 db ->
  let r1 := models.AddProfileACL db acl in
  let r2 := models.AddProfileACL r1.1 acl in
  r1.2 = None /\
  if models.UniqueClientID db
  then r2.2 = Some (DuplicateKey (models.ClientID acl)) /\
       count_client (models.ClientID acl) (models.VerneMQACLCollection r2.1) = 1
  else r2.2 = None /\
       count_client (models.ClientID acl) (models.VerneMQACLCollection r2.1) = 2.
Proof.
  intros Hnew Hav. cbv zeta.
  rewrite !AddProfileACL_InsertOne.
  pose proof (InsertOne_available 1 db acl Hav) as H1. cbv zeta in H1.
  destruct H1 as (Hav1 & Hu1 & _ & _ & H1).
  rewrite Hnew, andb_false_r in H1. destruct H1 as [He1 Hd1].
  set (r1 := models.VerneMQACLCollection_InsertOne db acl) in *.
  pose proof (InsertOne_available 0 r1.1 acl Hav1) as H2. cbv zeta in H2.
  destruct H2 as (_ & _ & _ & _ & H2).
  rewrite Hu1, Hd1 in H2.
  assert (Hhas : models.has_client (models.ClientID acl)
                   (models.VerneMQACLCollection db ++ [acl]) = true).
  { unfold models.has_client. rewrite existsb_app. simpl.
    rewrite String.eqb_refl. now rewrite orb_true_r. }
  rewrite Hhas in H2.
  assert (Hone : count_client (models.ClientID acl) [acl] = 1).
  { unfold count_client. simpl. now rewrite String.eqb_refl. }
  split; [exact He1|].
  destruct (models.UniqueClientID db); simpl in H2; destruct H2 as [He2 Hd2];
    (split; [exact He2|]); rewrite Hd2, !count_client_app, Hone,
    (has_client_false_count _ _ Hnew); reflexivity.
Qed.

Lemma AddProfileACL_twice_witness :
  (let r2 := models.AddProfileACL (models.AddProfileACL (emptyDB true) acl_c1).1 acl_c1 in
   r2.2 = Some (DuplicateKey "c1") /\
   count_client "c1" (models.VerneMQACLCollection r2.1) = 1) /\
  (let r2 := models.AddProfileACL (models.AddProfileACL (emptyDB false) acl_c1).1 acl_c1 in
   r2.2 = None /\
   count_client "c1" (models.VerneMQACLCollection r2.1) = 2).
Proof.
  split.
  - apply (AddProfileACL_twice (emptyDB true) acl_c1); [reflexivity|].
    unfold available. simpl. constructor.
  - apply (AddProfileACL_twice (emptyDB false) acl_c1); [reflexivity|].
    unfold available. simpl. constructor.
Defined.


(** *** Updating the password hash *)

(** C7: [UpdatePassHash] for a clientID without a record changes no document
    of either collection, whatever the connection does, and on a working
    connection it returns no error. *)
Theorem UpdatePassHash_absent_noop (db : models.MongoDB) (userID newPasshash : string) :
  models.has_client userID (models.VerneMQACLCollection db) = false ->
  let r := models.UpdatePassHash db userID newPasshash in
  models.VerneMQACLCollection r.1 = models.VerneMQACLCollection db /\
  models.GroupConversationCollection r.1 = models.GroupConversationCollection db /\
  (available 1 db -> r.2 = None).
Proof.
  intros Habs. cbv zeta. rewrite UpdatePassHash_UpdateOne.
  unfold models.VerneMQACLCollection_UpdateOne, models.issue, available.
  destruct (models.Faults db) as [|[e|] fs]; cbn;
    rewrite ?(update_first_absent _ _ _ Habs); repeat split; try reflexivity.
  intros H. apply Forall_cons in H as [H _]. discriminate H.
Qed.

Lemma UpdatePassHash_absent_noop_witness :
  models.has_client "c2" (models.VerneMQACLCollection db_c1) = false /\
  let r := models.UpdatePassHash db_c1 "c2" "hash2" in
  models.VerneMQACLCollection r.1 = [acl_c1] /\ r.2 = None.
Proof.
  split; [reflexivity|]. cbv zeta.
  destruct (UpdatePassHash_absent_noop db_c1 "c2" "hash2")
    as (Hacl & _ & Herr); [reflexivity|].
  split; [exact Hacl|]. apply Herr. unfold available. cbn. constructor.
Defined.

(** *** Granting topics *)

Lemma granted_0 path gid u d : granted path gid u 0 d = d.
Proof. destruct d. unfold granted. cbn. now rewrite !app_nil_r. Qed.

Lemma granted_S path gid u k d :
  granted path gid u k (models.apply_update (models.group_update path gid u) d)
  = granted path gid u (S k) d.
Proof.
  unfold granted. cbn. f_equal; now rewrite <- app_assoc.
Qed.

Lemma granted_add path gid u j k d :
  granted path gid u j (granted path gid u k d) = granted path gid u (k + j) d.
Proof.
  unfold granted. cbn. f_equal; now rewrite <- app_assoc, replicate_add.
Qed.

(** The record of a member after the fan-out: one pair of patterns for each
    of its occurrences in the member list. *)
Lemma find_fan_out path gid u members : forall docs d,
  find_client u docs = Some d ->
  find_client u (fan_out path gid members docs)
  = Some (granted path gid u (occurrences u members) d).
Proof.
  unfold fan_out, occurrences.
  induction members as [|m members IH]; intros docs d Hd; simpl.
  - now rewrite granted_0.
  - destruct (String.eqb u m) eqn:E.
    + apply String.eqb_eq in E. subst m. simpl length.
      rewrite (IH _ _ (find_update_first_same u _ docs d Hd)).
      now rewrite granted_S.
    + apply String.eqb_neq in E.
      apply IH. now rewrite find_update_first_other.
Qed.

(** [UpdateProfilesWithGroupACL] on a working connection: every member gets
    its call, in order, and no error is returned. *)
Lemma range_Members_available path gid members : forall n db,
  available (length members + n) db ->
  let r := models.range_Members path db gid members in
  r.2 = None /\
  available n r.1 /\
  models.UniqueClientID r.1 = models.UniqueClientID db /\
  models.GroupConversationCollection r.1 = models.GroupConversationCollection db /\
  models.Calls r.1 = (models.Calls db ++ group_calls path gid members)%list /\
  models.VerneMQACLCollection r.1 = fan_out path gid members (models.VerneMQACLCollection db).
Proof.
  induction members as [|m members IH]; intros n db Hav; cbv zeta.
  - cbn. rewrite app_nil_r. now repeat split.
  - cbn [models.range_Members].
    pose proof (UpdateOne_available (length members + n) db m
                  (models.group_update path gid m) Hav) as H.
    cbv zeta in H.
    destruct (models.VerneMQACLCollection_UpdateOne db m (models.group_update path gid m))
      as [db1 e1].
    cbn [fst snd] in H. destruct H as (-> & Hav1 & Hu & Hg & Hc & Hd).
    specialize (IH n db1 Hav1). cbv zeta in IH.
    destruct IH as (He & Havn & Hu' & Hg' & Hc' & Hd').
    repeat split; try assumption; try congruence.
    + rewrite Hc', Hc. cbn. now rewrite <- app_assoc.
    + rewrite Hd', Hd. reflexivity.
Qed.

Lemma issued_app db db' calls :
  models.Calls db' = (models.Calls db ++ calls)%list -> issued db db' = calls.
Proof. unfold issued. intros ->. apply drop_app_length. Qed.

(** C5: for the group g1 with the members u1 and u2,
    [UpdateProfilesWithGroupACL] on a working connection issues two updates
    and returns no error: the one with the filter on u1 pushes the publish
    pattern [<path>g1/u1] and the subscribe pattern [<path>g1/+], the one
    with the filter on u2 pushes [<path>g1/u2] and [<path>g1/+]; [<path>] is
    the constant [GroupConversationTopicPath], which carries the separator
    before the group identifier. *)
Theorem UpdateProfilesWithGroupACL_two_members (path name : string) (db : models.MongoDB) :
  available 2 db ->
  let g := {| models.GroupConversationID := "g1"; models.Name := name;
              models.Members := ["u1"; "u2"] |} in
  let r := models.UpdateProfilesWithGroupACL path db g in
  r.2 = None /\
  issued db r.1 =
    [ models.VerneMQACL_UpdateOne "u1"
        [ models.Push_publish_acl (models.BPattern (path +:+ "g1/u1"));
          models.Push_subscribe_acl (models.BPattern (path +:+ "g1/+")) ];
      models.VerneMQACL_UpdateOne "u2"
        [ models.Push_publish_acl (models.BPattern (path +:+ "g1/u2"));
          models.Push_subscribe_acl (models.BPattern (path +:+ "g1/+")) ] ] /\
  models.VerneMQACLCollection r.1 =
    models.update_first "u2"
      [ models.Push_publish_acl (models.BPattern (path +:+ "g1/u2"));
        models.Push_subscribe_acl (models.BPattern (path +:+ "g1/+")) ]
      (models.update_first "u1"
         [ models.Push_publish_acl (models.BPattern (path +:+ "g1/u1"));
           models.Push_subscribe_acl (models.BPattern (path +:+ "g1/+")) ]
         (models.VerneMQACLCollection db)).
Proof.
  intros Hav. cbv zeta. unfold models.UpdateProfilesWithGroupACL.
  cbn [models.GroupConversationID models.Members].
  pose proof (range_Members_available path "g1" ["u1"; "u2"] 0 db Hav) as H.
  cbv zeta in H. destruct H as (He & _ & _ & _ & Hc & Hd).
  split; [exact He|]. split.
  - now apply issued_app.
  - exact Hd.
Qed.

Lemma UpdateProfilesWithGroupACL_two_members_witness :
  available 2 (emptyDB false) /\
  issued (emptyDB false)
    (models.UpdateProfilesWithGroupACL "groups/" (emptyDB false)
       {| models.GroupConversationID := "g1"; models.Name := "team";
          models.Members := ["u1"; "u2"] |}).1 =
    [ models.VerneMQACL_UpdateOne "u1"
        [ models.Push_publish_acl (models.BPattern "groups/g1/u1");
          models.Push_subscribe_acl (models.BPattern "groups/g1/+") ];
      models.VerneMQACL_UpdateOne "u2"
        [ models.Push_publish_acl (models.BPattern "groups/g1/u2");
          models.Push_subscribe_acl (models.BPattern "groups/g1/+") ] ].
Proof.
  assert (Hav : available 2 (emptyDB false)) by (unfold available; cbn; constructor).
  split; [exact Hav|].
  exact (proj1 (proj2 (UpdateProfilesWithGroupACL_two_members "groups/" "team"
                         (emptyDB false) Hav))).
Defined.

(** C8: the grants are appends.  With a record for the client and a working
    connection, two calls of [AuthorizePublishing] with one topic leave the
    topic twice at the end of [publish_acl], and the second call changes
    what the first left; two calls of [UpdateProfilesWithGroupACL] for one
    group leave, in the record of a member, each of its two patterns twice
    for every occurrence of the member in the list. *)
Theorem grants_not_idempotent (path : string) (db : models.MongoDB)
    (userID topic : string) (g : models.GroupConversation) (d : models.VerneMQACL) :
  find_client userID (models.VerneMQACLCollection db) = Some d ->
  available (2 * length (models.Members g) + 2) db ->
  (let r1 := models.AuthorizePublishing db userID topic in
   let r2 := models.AuthorizePublishing r1.1 userID topic in
   r1.2 = None /\ r2.2 = None /\
   models.PublishACL <$> find_client userID (models.VerneMQACLCollection r1.1)
     = Some (models.PublishACL d ++ [models.BString topic])%list /\
   models.PublishACL <$> find_client userID (models.VerneMQACLCollection r2.1)
     = Some (models.PublishACL d ++ [models.BString topic; models.BString topic])%list /\
   models.VerneMQACLCollection r2.1 <> models.VerneMQACLCollection r1.1) /\
  (let r1 := models.UpdateProfilesWithGroupACL path db g in
   let r2 := models.UpdateProfilesWithGroupACL path r1.1 g in
   r1.2 = None /\ r2.2 = None /\
   find_client userID (models.VerneMQACLCollection r2.1)
     = Some (granted path (models.GroupConversationID g) userID
               (2 * occurrences userID (models.Members g)) d)).
Proof.
  intros Hd Hav. split; cbv zeta.
  - rewrite !AuthorizePublishing_UpdateOne.
    set (u := [models.Push_publish_acl (models.BString topic)]).
    assert (Hav2 : available 2 db) by (eapply available_le; [|exact Hav]; lia).
    pose proof (UpdateOne_available 1 db userID u Hav2) as H1. cbv zeta in H1.
    destruct H1 as (He1 & Hav1 & _ & _ & _ & Hd1).
    set (r1 := models.VerneMQACLCollection_UpdateOne db userID u) in *.
    pose proof (UpdateOne_available 0 r1.1 userID u Hav1) as H2. cbv zeta in H2.
    destruct H2 as (He2 & _ & _ & _ & _ & Hd2).
    set (r2 := models.VerneMQACLCollection_UpdateOne r1.1 userID u) in *.
    assert (F1 : find_client userID (models.VerneMQACLCollection r1.1)
                 = Some (models.apply_update u d)).
    { rewrite Hd1. now apply find_update_first_same. }
    assert (F2 : find_client userID (models.VerneMQACLCollection r2.1)
                 = Some (models.apply_update u (models.apply_update u d))).
    { rewrite Hd2. now apply find_update_first_same. }
    repeat split; try assumption.
    + now rewrite F1.
    + rewrite F2. cbn. now rewrite <- app_assoc.
    + intros Heq. rewrite Heq, F1 in F2. injection F2 as F2.
      apply (f_equal length) in F2. rewrite !length_app in F2. cbn in F2. lia.
  - unfold models.UpdateProfilesWithGroupACL.
    set (gid := models.GroupConversationID g). set (ms := models.Members g) in *.
    assert (Hav1 : available (length ms + (length ms + 2)) db)
      by (eapply available_le; [|exact Hav]; lia).
    pose proof (range_Members_available path gid ms _ db Hav1) as H1. cbv zeta in H1.
    destruct H1 as (He1 & Hav' & _ & _ & _ & Hd1).
    set (r1 := models.range_Members path db gid ms) in *.
    pose proof (range_Members_available path gid ms _ r1.1 Hav') as H2. cbv zeta in H2.
    destruct H2 as (He2 & _ & _ & _ & _ & Hd2).
    repeat split; try assumption.
    rewrite Hd2, Hd1.
    rewrite (find_fan_out path gid userID ms _ _
               (find_fan_out path gid userID ms _ _ Hd)).
    rewrite granted_add. f_equal. f_equal. lia.
Qed.

Lemma grants_not_idempotent_witness :
  let r2 := models.AuthorizePublishing
              (models.AuthorizePublishing db_c1 "c1" "news/c1").1 "c1" "news/c1" in
  models.PublishACL <$> find_client "c1" (models.VerneMQACLCollection r2.1)
    = Some [models.BString "news/c1"; models.BString "news/c1"].
Proof.
  pose proof (grants_not_idempotent "groups/" db_c1 "c1" "news/c1"
                {| models.GroupConversationID := "g1"; models.Name := "team";
                   models.Members := ["c1"] |} acl_c1) as H.
  destruct H as [(_ & _ & _ & H & _) _].
  - reflexivity.
  - unfold available. cbn. constructor.
  - exact H.
Defined.

(** ** The member loop of group creation *)

Section MemberLoop.

Variable redis : models.RedisInterface.
Variable clientID : string.

(** The loop filters in place: [tmp] writes at [j], behind the index [i]
    the range reads next, so every read still finds the element the request
    had there.  On the backing array [arr0] of the request the loop returns
    what [resolved_members] returns on the elements. *)
Lemma range_Members_refines (members : slice.Slice) (arr0 : list string) :
  length arr0 = slice.cap members ->
  slice.len members <= slice.cap members ->
  forall k i j (h : slice.Heap) (arr : list string),
    i + k = slice.len members ->
    j <= i ->
    h !! slice.ptr members = Some arr ->
    length arr = slice.cap members ->
    drop i arr = drop i arr0 ->
    match resolved_members redis clientID (take k (drop i arr0)) with
    | inr e =>
        router.range_Members redis clientID members (seq i k) h
          {| slice.ptr := slice.ptr members; slice.len := j;
             slice.cap := slice.cap members |} = inr e
    | inl l =>
        exists (h' : slice.Heap) (arr' : list string),
          router.range_Members redis clientID members (seq i k) h
            {| slice.ptr := slice.ptr members; slice.len := j;
               slice.cap := slice.cap members |}
          = inl (h', {| slice.ptr := slice.ptr members; slice.len := j + length l;
                        slice.cap := slice.cap members |}) /\
          h' !! slice.ptr members = Some arr' /\
          length arr' = slice.cap members /\
          take (j + length l) arr' = (take j arr ++ l)%list /\
          j + length l <= i + k
    end.
Proof.
  intros Hlen0 Hcap.
  induction k as [|k IH]; intros i j h arr Hik Hji Hh Hlen Hdrop.
  - cbn. exists h, arr. rewrite Nat.add_0_r, app_nil_r. repeat split; try done. lia.
  - assert (Hi : i < length arr0) by lia.
    destruct (lookup_lt_is_Some_2 arr0 i Hi) as [x Hx].
    assert (Hxa : arr !! i = Some x).
    { rewrite <- (Nat.add_0_r i), <- lookup_drop, Hdrop, lookup_drop, Nat.add_0_r.
      exact Hx. }
    assert (Hdrop' : drop (S i) arr = drop (S i) arr0).
    { replace (S i) with (i + 1) by lia. rewrite <- !drop_drop. now rewrite Hdrop. }
    rewrite (drop_S arr0 x i Hx). cbn [take resolved_members seq router.range_Members].
    assert (Hidx : slice.index h members i = x).
    { unfold slice.index. rewrite Hh. cbn. now rewrite Hxa. }
    rewrite !Hidx.
    destruct (models.Exists redis ("mapping:" +:+ x)) as [[|] [e|]];
      cbv beta iota; [reflexivity| |reflexivity|].
    2:{ specialize (IH (S i) j h arr ltac:(lia) ltac:(lia) Hh Hlen Hdrop'). rename IH into Hnext.
        destruct (resolved_members redis clientID (take k (drop (S i) arr0))) as [l|e];
          [|exact Hnext].
        destruct Hnext as (h' & arr' & ? & ? & ? & ? & ?).
        exists h', arr'. repeat split; try done. lia. }
    destruct (models.HGet redis ("mapping:" +:+ x) "internalWaveUserID") as [v [e|]];
      cbv beta iota; [reflexivity|].
    destruct (String.eqb v clientID); cbn [negb]; cbv beta iota.
    { specialize (IH (S i) j h arr ltac:(lia) ltac:(lia) Hh Hlen Hdrop'). rename IH into Hnext.
      destruct (resolved_members redis clientID (take k (drop (S i) arr0))) as [l|e];
        [|exact Hnext].
      destruct Hnext as (h' & arr' & ? & ? & ? & ? & ?).
      exists h', arr'. repeat split; try done. lia. }
    unfold slice.append. cbn [slice.len slice.cap slice.ptr].
    assert (Hj : j < slice.cap members) by lia.
    apply Nat.ltb_lt in Hj as Hjb. rewrite Hjb.
    specialize (IH (S i) (S j)
                  (alter (fun arr : list string => <[j:=v]> arr) (slice.ptr members) h)
                  (<[j:=v]> arr) ltac:(lia) ltac:(lia)).
    rename IH into Hnext.
    rewrite list_lookup_alter_eq, Hh, length_insert in Hnext.
    specialize (Hnext eq_refl Hlen).
    rewrite drop_insert_lt in Hnext by lia. specialize (Hnext Hdrop').
    destruct (resolved_members redis clientID (take k (drop (S i) arr0))) as [l|e];
      [|exact Hnext].
    destruct Hnext as (h' & arr' & Hr & Hh' & Hlen' & Htake & Hle).
    exists h', arr'. cbn [length].
    replace (j + S (length l)) with (S j + length l) by lia.
    repeat split; try done.
    + rewrite Htake.
      rewrite (take_S_r (<[j:=v]> arr) j v).
      * rewrite take_insert_ge by lia. now rewrite <- app_assoc.
      * apply list_lookup_insert_eq. lia.
    + lia.
Qed.

(** [append] adds one element at the end, in place or in a new array. *)
Lemma append_elements (h : slice.Heap) (arr : list string) (s : slice.Slice) (x : string) :
  h !! slice.ptr s = Some arr ->
  length arr = slice.cap s ->
  slice.len s <= slice.cap s ->
  slice.elements (slice.append h s x).1 (slice.append h s x).2
  = (slice.elements h s ++ [x])%list.
Proof.
  intros Hh Hlen Hle. unfold slice.append, slice.elements.
  destruct (Nat.ltb (slice.len s) (slice.cap s)) eqn:E; cbn [fst snd slice.ptr slice.len].
  - apply Nat.ltb_lt in E.
    rewrite list_lookup_alter_eq, Hh. cbn [fmap option_fmap option_map default].
    unfold id.
    rewrite (take_S_r _ _ x) by (apply list_lookup_insert_eq; lia).
    now rewrite take_insert_ge by lia.
  - apply Nat.ltb_ge in E. rewrite Hh. cbn [default]. unfold id.
    assert (Hl : length (take (slice.len s) arr) = slice.len s)
      by (rewrite length_take; lia).
    rewrite lookup_app_r by lia. rewrite Nat.sub_diag. cbn [lookup list_lookup default].
    unfold id. rewrite (cons_middle x), app_assoc.
    apply take_app_length'. rewrite length_app, Hl. cbn. lia.
Qed.

Variable newID : string -> list string -> string.

(** The group [AddGroupConversation] builds: the resolved members in the
    order of their handles, then the requester. *)
Lemma build_group_refines (h : slice.Heap) (reqBody : utils.GroupConversationBody) :
  slice.wf h (utils.Members reqBody) ->
  router.build_group newID redis clientID h reqBody =
  match resolved_members redis clientID (slice.elements h (utils.Members reqBody)) with
  | inl l => inl (models.NewGroupConversation newID (utils.Name reqBody) (l ++ [clientID]))
  | inr e => inr e
  end.
Proof.
  intros (arr0 & Hh & Hlen & Hcap). unfold router.build_group.
  assert (Hel : slice.elements h (utils.Members reqBody)
                = take (slice.len (utils.Members reqBody)) arr0)
    by (unfold slice.elements; now rewrite Hh).
  rewrite Hel.
  pose proof (range_Members_refines (utils.Members reqBody) arr0 Hlen Hcap
                (slice.len (utils.Members reqBody)) 0 0 h arr0
                eq_refl (le_n 0) Hh Hlen eq_refl) as H.
  rewrite drop_0 in H. unfold slice.reslice0.
  destruct (resolved_members redis clientID
              (take (slice.len (utils.Members reqBody)) arr0)) as [l|e].
  - destruct H as (h' & arr' & -> & Hh' & Hlen' & Htake & Hle).
    cbn [Nat.add] in *.
    set (tmp := {| slice.ptr := slice.ptr (utils.Members reqBody);
                   slice.len := length l;
                   slice.cap := slice.cap (utils.Members reqBody) |}).
    pose proof (append_elements h' arr' tmp clientID Hh' Hlen' ltac:(cbn; lia)) as Ha.
    destruct (slice.append h' tmp clientID) as [h'' members]. cbn [fst snd] in Ha.
    rewrite Ha. unfold slice.elements, tmp. cbn [slice.ptr slice.len].
    rewrite Hh'. cbn in Htake |- *. now rewrite Htake.
  - now rewrite H.
Qed.

End MemberLoop.

(** ** The handlers *)

Section HandlerFacts.

Variable IsTokenValid : models.Env -> string -> bool * option error.
Variable CheckAuthentication : models.Env -> string -> auth.Return * models.Env.
Variable defaultACL : string -> list models.BsonValue * list models.BsonValue.
Variable newID : string -> list string -> string.
Variable path : string.

(** [InsertOne] on the group collection, whatever the connection does. *)
Lemma AddGroupConversation_effect (db : models.MongoDB) (g : models.GroupConversation) :
  let r := models.AddGroupConversation db g in
  models.Calls r.1 = (models.Calls db ++ [models.GroupConversation_InsertOne g])%list /\
  models.VerneMQACLCollection r.1 = models.VerneMQACLCollection db /\
  models.UniqueClientID r.1 = models.UniqueClientID db /\
  models.Faults r.1 = tail (models.Faults db) /\
  match models.Faults db with
  | Some e :: _ =>
      r.2 = Some e /\
      models.GroupConversationCollection r.1 = models.GroupConversationCollection db
  | _ =>
      r.2 = None /\
      models.GroupConversationCollection r.1
      = (models.GroupConversationCollection db ++ [g])%list
  end.
Proof.
  unfold models.AddGroupConversation, models.bson_Marshal,
    models.GroupConversationCollection_InsertOne, models.issue.
  destruct (models.Faults db) as [|[e|] fs]; cbn; now repeat split.
Qed.

(** The calls of the fan-out are updates of the members, in order, up to the
    first one that fails. *)
Lemma range_Members_calls (gid : string) (members : list string) :
  forall db : models.MongoDB,
  exists k,
    models.Calls (models.range_Members path db gid members).1
    = (models.Calls db ++ group_calls path gid (take k members))%list.
Proof.
  induction members as [|m members IH]; intros db.
  - exists 0. cbn. now rewrite app_nil_r.
  - cbn [models.range_Members].
    unfold models.VerneMQACLCollection_UpdateOne, models.issue.
    destruct (models.Faults db) as [|[e|] fs]; cbn [fst snd].
    + match goal with |- context [models.range_Members path ?d gid members] =>
        destruct (IH d) as [k Hk] end.
      exists (S k). rewrite Hk. cbn. now rewrite <- app_assoc.
    + exists 1. cbn. now rewrite take_0.
    + match goal with |- context [models.range_Members path ?d gid members] =>
        destruct (IH d) as [k Hk] end.
      exists (S k). rewrite Hk. cbn. now rewrite <- app_assoc.
Qed.

(** [AddGroupConversation] after the checks of the token: the member loop,
    the insert, whose error is overwritten, and the fan-out, whose error
    decides the response. *)
Lemma AddGroupConversation_run (env env1 : models.Env) (w : router.ResponseWriter)
    (r : router.Request (slice.Heap * utils.GroupConversationBody))
    (ret : auth.Return) (h : slice.Heap) (reqBody : utils.GroupConversationBody) :
  IsTokenValid env (router.Header_token r) = (true, None) ->
  CheckAuthentication env (router.Header_token r) = (ret, env1) ->
  auth.err ret = None ->
  router.Body r = Some (h, reqBody) ->
  slice.wf h (utils.Members reqBody) ->
  router.AddGroupConversation IsTokenValid CheckAuthentication newID path env w r =
  match resolved_members (models.Redis env1) (auth.ClientID (auth.infos ret))
          (slice.elements h (utils.Members reqBody)) with
  | inr e => (env1, w, Some e)
  | inl l =>
      let g := models.NewGroupConversation newID (utils.Name reqBody)
                 (l ++ [auth.ClientID (auth.infos ret)]) in
      let r1 := models.AddGroupConversation (models.Mongo env1) g in
      let r2 := models.UpdateProfilesWithGroupACL path r1.1 g in
      match r2.2 with
      | Some _ => (models.with_Mongo env1 r2.1, w, Some (errors_New CodeInvalidToken))
      | None =>
          (models.with_Mongo env1 r2.1,
           router.WriteResponse router.PNil
             (router.NewEntry "MessagingService" "/helloworld" CodeSuccess) w,
           None)
      end
  end.
Proof.
  intros Htok Hauth Herr Hbody Hwf.
  unfold router.AddGroupConversation.
  rewrite Htok. cbn [negb]. rewrite Hauth, Herr, Hbody.
  rewrite (build_group_refines _ _ newID h reqBody Hwf).
  destruct (resolved_members _ _ _) as [l|e]; [|reflexivity].
  cbv zeta.
  destruct (models.AddGroupConversation _ _) as [db1 e1]. cbn [fst].
  destruct (models.UpdateProfilesWithGroupACL _ _ _) as [db2 [e2|]]; reflexivity.
Qed.

Lemma AddGroupConversation_available n (db : models.MongoDB) (g : models.GroupConversation) :
  available (S n) db ->
  let r := models.AddGroupConversation db g in
  r.2 = None /\
  available n r.1 /\
  models.GroupConversationCollection r.1
  = (models.GroupConversationCollection db ++ [g])%list.
Proof.
  intros Hav. cbv zeta.
  destruct (AddGroupConversation_effect db g) as (_ & _ & _ & Hf & H).
  unfold available in *. rewrite Hf.
  destruct (models.Faults db) as [|f fs]; cbn in *.
  - destruct H as [-> ->]. rewrite take_nil. now repeat split.
  - apply Forall_cons in Hav as [-> Hav]. destruct H as [-> ->]. now repeat split.
Qed.

(** The requester is not among the resolved members. *)
Lemma resolved_members_not_requester (redis : models.RedisInterface) (c : string)
    (handles l : list string) :
  resolved_members redis c handles = inl l -> c ∉ l.
Proof.
  revert l. induction handles as [|m handles IH]; intros l; cbn [resolved_members].
  - intros [= <-]. apply not_elem_of_nil.
  - destruct (models.Exists redis ("mapping:" +:+ m)) as [[|] [e|]]; try discriminate;
      [|apply IH].
    destruct (models.HGet redis ("mapping:" +:+ m) "internalWaveUserID") as [v [e|]];
      try discriminate.
    destruct (String.eqb v c) eqn:E; [apply IH|].
    destruct (resolved_members redis c handles) as [l'|e]; try discriminate.
    intros [= <-]. apply String.eqb_neq in E.
    rewrite not_elem_of_cons. split; [congruence|now apply IH].
Qed.

(** The only group document the handler hands to the store is the one it
    built. *)
Lemma AddGroupConversation_issued (db : models.MongoDB) (g g' : models.GroupConversation) :
  let r1 := models.AddGroupConversation db g in
  let r2 := models.UpdateProfilesWithGroupACL path r1.1 g in
  models.GroupConversation_InsertOne g' ∈ issued db r2.1 -> g' = g.
Proof.
  cbv zeta. unfold models.UpdateProfilesWithGroupACL.
  destruct (range_Members_calls (models.GroupConversationID g) (models.Members g)
              (models.AddGroupConversation db g).1) as [k Hk].
  destruct (AddGroupConversation_effect db g) as (Hc & _).
  rewrite Hc, <- app_assoc in Hk. rewrite (issued_app _ _ _ Hk).
  rewrite elem_of_app, list_elem_of_singleton. intros [H|H]; [congruence|].
  unfold group_calls in H. apply list_elem_of_fmap in H as (u & Hu & _). discriminate Hu.
Qed.

End HandlerFacts.

(** *** Group creation *)

(** C3, as stated, fails: the handles a and c both resolve to u2, and the
    group document handed to the store has the members u2, u2, u1. *)
Lemma AddGroupConversation_duplicate_member :
  let env := env_of [("a", "u2"); ("c", "u2")] [] in
  ~ members_without_duplicates (models.Mongo env)
      (models.Mongo (create_group env ["a"; "c"]).1.1).
Proof.
  cbv zeta. intros H.
  specialize (H {| models.GroupConversationID := "g-team"; models.Name := "team";
                   models.Members := ["u2"; "u2"; "u1"] |}).
  assert (Hin : models.GroupConversation_InsertOne
                  {| models.GroupConversationID := "g-team"; models.Name := "team";
                     models.Members := ["u2"; "u2"; "u1"] |}
                ∈ issued (models.Mongo (env_of [("a", "u2"); ("c", "u2")] []))
                    (models.Mongo
                       (create_group (env_of [("a", "u2"); ("c", "u2")] [])
                          ["a"; "c"]).1.1)).
  { vm_compute. apply list_elem_of_here. }
  specialize (H Hin). cbn in H.
  apply NoDup_cons in H as [Hnot _]. apply Hnot. apply list_elem_of_here.
Qed.

(** C3, amended: the member list of the group document the handler hands to
    the store is the list of the clientIDs the known candidate handles
    resolve to, one entry per handle and the requester's left out, followed
    by the requester's clientID.  The requester occurs once; the list has no
    duplicates exactly when no two of those handles resolve to one
    clientID. *)
Theorem AddGroupConversation_members
    (IsTokenValid : models.Env -> string -> bool * option error)
    (CheckAuthentication : models.Env -> string -> auth.Return * models.Env)
    (newID : string -> list string -> string) (path : string)
    (env env1 : models.Env) (w : router.ResponseWriter)
    (r : router.Request (slice.Heap * utils.GroupConversationBody))
    (ret : auth.Return) (h : slice.Heap) (reqBody : utils.GroupConversationBody)
    (g : models.GroupConversation) :
  IsTokenValid env (router.Header_token r) = (true, None) ->
  CheckAuthentication env (router.Header_token r) = (ret, env1) ->
  auth.err ret = None ->
  router.Body r = Some (h, reqBody) ->
  slice.wf h (utils.Members reqBody) ->
  models.GroupConversation_InsertOne g
    ∈ issued (models.Mongo env1)
        (models.Mongo
           (router.AddGroupConversation IsTokenValid CheckAuthentication newID path
              env w r).1.1) ->
  exists l : list string,
    resolved_members (models.Redis env1) (auth.ClientID (auth.infos ret))
      (slice.elements h (utils.Members reqBody)) = inl l /\
    models.Members g = (l ++ [auth.ClientID (auth.infos ret)])%list /\
    (auth.ClientID (auth.infos ret) ∉ l) /\
    (NoDup (models.Members g) <-> NoDup l).
Proof.
  intros Htok Hauth Herr Hbody Hwf.
  rewrite (AddGroupConversation_run IsTokenValid CheckAuthentication newID path
             env env1 w r ret h reqBody Htok Hauth Herr Hbody Hwf).
  destruct (resolved_members _ _ _) as [l|e] eqn:Hres.
  - cbv zeta.
    set (g0 := models.NewGroupConversation newID (utils.Name reqBody)
                 (l ++ [auth.ClientID (auth.infos ret)])).
    intros Hin.
    assert (Hg : g = g0).
    { apply (AddGroupConversation_issued path (models.Mongo env1) g0 g).
      cbv zeta. destruct (models.UpdateProfilesWithGroupACL _ _ _) as [db2 [e2|]];
        exact Hin. }
    pose proof (resolved_members_not_requester _ _ _ _ Hres) as Hnot.
    exists l. subst g. cbn [g0 models.NewGroupConversation models.Members].
    repeat split; try done.
    + intros Hnd. now apply NoDup_app in Hnd as (? & _).
    + intros Hnd. apply NoDup_app. repeat split; [done| |apply NoDup_singleton].
      intros x Hx ->%list_elem_of_singleton. done.
  - cbn [fst]. unfold issued. rewrite drop_all. intros Hin.
    now apply not_elem_of_nil in Hin.
Qed.

Lemma AddGroupConversation_members_witness :
  exists l : list string,
    resolved_members (cache_of [("a", "u2"); ("c", "u2")]) "u1" ["a"; "c"] = inl l /\
    ["u2"; "u2"; "u1"] = (l ++ ["u1"])%list /\
    ("u1" ∉ l) /\
    (NoDup ["u2"; "u2"; "u1"] <-> NoDup l).
Proof.
  apply (AddGroupConversation_members anyToken (freshAs "u1") idOfName "groups/"
           (env_of [("a", "u2"); ("c", "u2")] []) (env_of [("a", "u2"); ("c", "u2")] [])
           [] (group_request "tok" "team" ["a"; "c"])
           (freshAs "u1" (env_of [("a", "u2"); ("c", "u2")] []) "tok").1
           [["a"; "c"]]
           {| utils.Name := "team";
              utils.Members := {| slice.ptr := 0; slice.len := 2; slice.cap := 2 |} |}
           {| models.GroupConversationID := "g-team"; models.Name := "team";
              models.Members := ["u2"; "u2"; "u1"] |}).
  - reflexivity.
  - reflexivity.
  - reflexivity.
  - reflexivity.
  - exists ["a"; "c"]. repeat split; cbn; lia.
  - vm_compute. apply list_elem_of_here.
Defined.

(** C4: requester u1, candidate handles a, b and ghost, where a maps to u2,
    b maps to u1 and ghost has no mapping.  On a working connection the
    handler returns no error and stores one group whose members are u2 and
    u1: exactly the set of u1 and u2, each once. *)
Theorem AddGroupConversation_scenario
    (IsTokenValid : models.Env -> string -> bool * option error)
    (CheckAuthentication : models.Env -> string -> auth.Return * models.Env)
    (newID : string -> list string -> string) (path : string)
    (env env1 : models.Env) (w : router.ResponseWriter)
    (r : router.Request (slice.Heap * utils.GroupConversationBody))
    (ret : auth.Return) (h : slice.Heap) (reqBody : utils.GroupConversationBody) :
  IsTokenValid env (router.Header_token r) = (true, None) ->
  CheckAuthentication env (router.Header_token r) = (ret, env1) ->
  auth.err ret = None ->
  auth.ClientID (auth.infos ret) = "u1" ->
  router.Body r = Some (h, reqBody) ->
  slice.wf h (utils.Members reqBody) ->
  slice.elements h (utils.Members reqBody) = ["a"; "b"; "ghost"] ->
  models.Exists (models.Redis env1) "mapping:a" = (true, None) ->
  models.HGet (models.Redis env1) "mapping:a" "internalWaveUserID" = ("u2", None) ->
  models.Exists (models.Redis env1) "mapping:b" = (true, None) ->
  models.HGet (models.Redis env1) "mapping:b" "internalWaveUserID" = ("u1", None) ->
  models.Exists (models.Redis env1) "mapping:ghost" = (false, None) ->
  available 3 (models.Mongo env1) ->
  let res := router.AddGroupConversation IsTokenValid CheckAuthentication newID path
               env w r in
  let g := models.NewGroupConversation newID (utils.Name reqBody) ["u2"; "u1"] in
  res.2 = None /\
  models.GroupConversationCollection (models.Mongo res.1.1)
  = (models.GroupConversationCollection (models.Mongo env1) ++ [g])%list /\
  (forall x : string, x ∈ models.Members g <-> x = "u1" \/ x = "u2") /\
  NoDup (models.Members g).
Proof.
  intros Htok Hauth Herr Hc Hbody Hwf Hel Ea Ha Eb Hb Eg Hav. cbv zeta.
  rewrite (AddGroupConversation_run IsTokenValid CheckAuthentication newID path
             env env1 w r ret h reqBody Htok Hauth Herr Hbody Hwf).
  rewrite Hel, Hc. cbn [resolved_members]. change ("mapping:" +:+ "a") with "mapping:a".
  change ("mapping:" +:+ "b") with "mapping:b".
  change ("mapping:" +:+ "ghost") with "mapping:ghost".
  rewrite Ea, Ha, Eb, Hb, Eg. cbn [String.eqb Ascii.eqb Bool.eqb app].
  cbv zeta.
  set (g := models.NewGroupConversation newID (utils.Name reqBody) ["u2"; "u1"]).
  pose proof (AddGroupConversation_available 2 (models.Mongo env1) g Hav) as H1.
  cbv zeta in H1. destruct H1 as (_ & Hav1 & Hg1).
  unfold models.UpdateProfilesWithGroupACL.
  pose proof (range_Members_available path (models.GroupConversationID g)
                (models.Members g) 0 _ Hav1) as H2.
  cbv zeta in H2. destruct H2 as (He2 & _ & _ & Hg2 & _).
  rewrite He2. cbn [fst snd models.Mongo models.with_Mongo].
  rewrite Hg2, Hg1. repeat split.
  - cbn. rewrite !elem_of_cons, elem_of_nil. tauto.
  - cbn. rewrite !elem_of_cons, elem_of_nil. intros [->| ->]; tauto.
  - cbn. apply NoDup_cons. split.
    + rewrite list_elem_of_singleton. discriminate.
    + apply NoDup_singleton.
Qed.

Lemma AddGroupConversation_scenario_witness :
  let res := create_group (env_of [("a", "u2"); ("b", "u1")] []) ["a"; "b"; "ghost"] in
  res.2 = None /\
  models.GroupConversationCollection (models.Mongo res.1.1)
  = [ {| models.GroupConversationID := "g-team"; models.Name := "team";
         models.Members := ["u2"; "u1"] |} ].
Proof.
  pose proof (AddGroupConversation_scenario anyToken (freshAs "u1") idOfName "groups/"
           (env_of [("a", "u2"); ("b", "u1")] []) (env_of [("a", "u2"); ("b", "u1")] [])
           [] (group_request "tok" "team" ["a"; "b"; "ghost"])
           (freshAs "u1" (env_of [("a", "u2"); ("b", "u1")] []) "tok").1
           [["a"; "b"; "ghost"]]
           {| utils.Name := "team";
              utils.Members := {| slice.ptr := 0; slice.len := 3; slice.cap := 3 |} |})
    as H.
  cbv zeta in H.
  destruct H as (He & Hg & _); try reflexivity.
  - exists ["a"; "b"; "ghost"]. repeat split; cbn; lia.
  - unfold available. cbn. constructor.
  - split; [exact He|exact Hg].
Defined.

(** C9: the error of the insert of the group is overwritten.  When the
    insert fails and the updates that follow go through, the group is not
    stored, every member still gets its update, the handler writes the
    success response and returns no error. *)
Theorem AddGroupConversation_persist_error_discarded
    (IsTokenValid : models.Env -> string -> bool * option error)
    (CheckAuthentication : models.Env -> string -> auth.Return * models.Env)
    (newID : string -> list string -> string) (path : string)
    (env env1 : models.Env) (w : router.ResponseWriter)
    (r : router.Request (slice.Heap * utils.GroupConversationBody))
    (ret : auth.Return) (h : slice.Heap) (reqBody : utils.GroupConversationBody)
    (l : list string) (e : error) (faults : list (option error)) :
  IsTokenValid env (router.Header_token r) = (true, None) ->
  CheckAuthentication env (router.Header_token r) = (ret, env1) ->
  auth.err ret = None ->
  router.Body r = Some (h, reqBody) ->
  slice.wf h (utils.Members reqBody) ->
  resolved_members (models.Redis env1) (auth.ClientID (auth.infos ret))
    (slice.elements h (utils.Members reqBody)) = inl l ->
  models.Faults (models.Mongo env1) = Some e :: faults ->
  Forall (fun f : option error => f = None) (take (S (length l)) faults) ->
  let g := models.NewGroupConversation newID (utils.Name reqBody)
             (l ++ [auth.ClientID (auth.infos ret)]) in
  let res := router.AddGroupConversation IsTokenValid CheckAuthentication newID path
               env w r in
  (models.AddGroupConversation (models.Mongo env1) g).2 = Some e /\
  models.GroupConversationCollection (models.Mongo res.1.1)
  = models.GroupConversationCollection (models.Mongo env1) /\
  issued (models.Mongo env1) (models.Mongo res.1.1)
  = models.GroupConversation_InsertOne g
    :: group_calls path (models.GroupConversationID g) (models.Members g) /\
  res.1.2 = router.WriteResponse router.PNil
              (router.NewEntry "MessagingService" "/helloworld" CodeSuccess) w /\
  res.2 = None.
Proof.
  intros Htok Hauth Herr Hbody Hwf Hres Hf Hav. cbv zeta.
  rewrite (AddGroupConversation_run IsTokenValid CheckAuthentication newID path
             env env1 w r ret h reqBody Htok Hauth Herr Hbody Hwf).
  rewrite Hres. cbv zeta.
  set (g := models.NewGroupConversation newID (utils.Name reqBody)
              (l ++ [auth.ClientID (auth.infos ret)])).
  destruct (AddGroupConversation_effect (models.Mongo env1) g) as (Hc1 & _ & _ & Hf1 & H1).
  rewrite Hf in Hf1, H1. destruct H1 as [He1 Hg1]. cbn [tail] in Hf1.
  assert (Hav1 : available (length (models.Members g) + 0)
                   (models.AddGroupConversation (models.Mongo env1) g).1).
  { unfold available. rewrite Hf1. cbn [g models.NewGroupConversation models.Members].
    rewrite length_app. cbn [length]. now replace (length l + 1 + 0) with (S (length l)) by lia. }
  unfold models.UpdateProfilesWithGroupACL.
  pose proof (range_Members_available path (models.GroupConversationID g)
                (models.Members g) 0 _ Hav1) as H2.
  cbv zeta in H2. destruct H2 as (He2 & _ & _ & Hg2 & Hc2 & _).
  rewrite He2. cbn [fst snd models.Mongo models.with_Mongo].
  repeat split; try done.
  - now rewrite Hg2.
  - apply issued_app. rewrite Hc2, Hc1. now rewrite <- app_assoc.
Qed.

Lemma AddGroupConversation_persist_error_discarded_witness :
  let env := env_of [("a", "u2")] [Some (ExternalError "connection reset")] in
  let res := create_group env ["a"] in
  models.GroupConversationCollection (models.Mongo res.1.1) = [] /\
  length (issued (models.Mongo env) (models.Mongo res.1.1)) = 3 /\
  res.2 = None.
Proof.
  pose proof (AddGroupConversation_persist_error_discarded anyToken (freshAs "u1")
           idOfName "groups/"
           (env_of [("a", "u2")] [Some (ExternalError "connection reset")])
           (env_of [("a", "u2")] [Some (ExternalError "connection reset")])
           [] (group_request "tok" "team" ["a"])
           (freshAs "u1" (env_of [("a", "u2")] []) "tok").1
           [["a"]]
           {| utils.Name := "team";
              utils.Members := {| slice.ptr := 0; slice.len := 1; slice.cap := 1 |} |}
           ["u2"] (ExternalError "connection reset") [])
    as H.
  cbv zeta in H.
  destruct H as (_ & Hg & Hi & _ & He); try reflexivity.
  - exists ["a"]. repeat split; cbn; lia.
  - cbn. constructor.
  - cbv zeta. split; [exact Hg|]. split; [|exact He].
    exact (f_equal length Hi).
Defined.

(** *** Seeding the record of a client *)

Lemma AddProfileACL_calls (db : models.MongoDB) (acl : models.VerneMQACL) :
  models.Calls (models.AddProfileACL db acl).1
  = (models.Calls db ++ [models.VerneMQACL_InsertOne acl])%list.
Proof.
  rewrite AddProfileACL_InsertOne.
  unfold models.VerneMQACLCollection_InsertOne, models.issue.
  destruct (models.Faults db) as [|[e|] fs]; cbn; try reflexivity;
    destruct (models.UniqueClientID db && _); reflexivity.
Qed.

Lemma issued_nothing (db : models.MongoDB) : issued db db = [].
Proof. unfold issued. apply drop_all. Qed.

(** [AddVerneMQACL] after the checks of the token, by outcome. *)
Lemma AddVerneMQACL_run {B : Type}
    (IsTokenValid : models.Env -> string -> bool * option error)
    (CheckAuthentication : models.Env -> string -> auth.Return * models.Env)
    (defaultACL : string -> list models.BsonValue * list models.BsonValue)
    (env env1 : models.Env) (w : router.ResponseWriter) (r : router.Request B)
    (ret : auth.Return) :
  IsTokenValid env (router.Header_token r) = (true, None) ->
  CheckAuthentication env (router.Header_token r) = (ret, env1) ->
  router.AddVerneMQACL IsTokenValid CheckAuthentication defaultACL env w r =
  match auth.outcome ret with
  | auth.Failed => (env1, w, Some (errors_New CodeInvalidToken))
  | auth.Updated => (env1, w, Some (errors_New CodeUpdated))
  | auth.Cached => (env1, w, Some (errors_New CodeAlreadyExists))
  | auth.Fresh =>
      let acl := models.NewVerneMQACL defaultACL (auth.ClientID (auth.infos ret))
                   (auth.Username (auth.infos ret)) (auth.Password (auth.infos ret)) in
      let r1 := models.AddProfileACL (models.Mongo env1) acl in
      match r1.2 with
      | Some _ => (models.with_Mongo env1 r1.1, w, Some (errors_New CodeInvalidToken))
      | None =>
          (models.with_Mongo env1 r1.1,
           router.WriteResponse (router.PString (auth.ClientID (auth.infos ret)))
             (router.NewEntry "MessagingService" "/helloworld" CodeSuccess) w,
           None)
      end
  end.
Proof.
  intros Htok Hauth.
  unfold router.AddVerneMQACL, router.AddVerneMQACL_authenticated, auth.outcome.
  rewrite Htok. cbn [negb]. rewrite Hauth.
  destruct (auth.err ret); [reflexivity|].
  destruct (auth.wasTokenUpdated ret); [reflexivity|].
  destruct (auth.wasCached ret); [reflexivity|].
  cbv zeta. destruct (models.AddProfileACL _ _) as [db [e|]]; reflexivity.
Qed.

(** C2: after the checks of the token, [AddVerneMQACL] hands the insert of
    the new record to the store if and only if the outcome of the
    authentication is Fresh, and then the store is what [AddProfileACL]
    leaves.  For Cached and Updated (and for a failed authentication) the
    environment and the writer are as the authentication left them and the
    error returned is [CodeAlreadyExists], [CodeUpdated] (and
    [CodeInvalidToken]); a Fresh request returns no error or
    [CodeInvalidToken]. *)
Theorem AddVerneMQACL_seeds_iff_fresh {B : Type}
    (IsTokenValid : models.Env -> string -> bool * option error)
    (CheckAuthentication : models.Env -> string -> auth.Return * models.Env)
    (defaultACL : string -> list models.BsonValue * list models.BsonValue)
    (env env1 : models.Env) (w : router.ResponseWriter) (r : router.Request B)
    (ret : auth.Return) :
  IsTokenValid env (router.Header_token r) = (true, None) ->
  CheckAuthentication env (router.Header_token r) = (ret, env1) ->
  let res := router.AddVerneMQACL IsTokenValid CheckAuthentication defaultACL env w r in
  let acl := models.NewVerneMQACL defaultACL (auth.ClientID (auth.infos ret))
               (auth.Username (auth.infos ret)) (auth.Password (auth.infos ret)) in
  (auth.outcome ret = auth.Fresh <->
   issued (models.Mongo env1) (models.Mongo res.1.1) = [models.VerneMQACL_InsertOne acl]) /\
  (auth.outcome ret = auth.Fresh ->
   models.Mongo res.1.1 = (models.AddProfileACL (models.Mongo env1) acl).1 /\
   (res.2 = None \/ res.2 = Some (errors_New CodeInvalidToken))) /\
  (auth.outcome ret = auth.Cached ->
   res = (env1, w, Some (errors_New CodeAlreadyExists))) /\
  (auth.outcome ret = auth.Updated ->
   res = (env1, w, Some (errors_New CodeUpdated))) /\
  (auth.outcome ret = auth.Failed ->
   res = (env1, w, Some (errors_New CodeInvalidToken))).
Proof.
  intros Htok Hauth. cbv zeta.
  rewrite (AddVerneMQACL_run IsTokenValid CheckAuthentication defaultACL
             env env1 w r ret Htok Hauth).
  destruct (auth.outcome ret); cbn [fst snd];
    rewrite ?issued_nothing; repeat split; try discriminate; try done.
  - intros _. apply issued_app.
    destruct (models.AddProfileACL _ _) as [db [e|]] eqn:E; cbn [fst snd models.Mongo
      models.with_Mongo];
      pose proof (AddProfileACL_calls (models.Mongo env1)
        (models.NewVerneMQACL defaultACL (auth.ClientID (auth.infos ret))
           (auth.Username (auth.infos ret)) (auth.Password (auth.infos ret)))) as Hc;
      rewrite E in Hc; exact Hc.
  - cbv zeta. destruct (models.AddProfileACL _ _) as [db [e|]]; reflexivity.
  - cbv zeta. destruct (models.AddProfileACL _ _) as [db [e|]]; cbn; tauto.
Qed.

Lemma AddVerneMQACL_seeds_iff_fresh_witness :
  let env := env_of [] [] in
  let res := router.AddVerneMQACL anyToken (freshAs "c1") noDefaultACL env []
               (token_request "tok-A") in
  issued (models.Mongo env) (models.Mongo res.1.1) = [models.VerneMQACL_InsertOne acl_c1] /\
  models.VerneMQACLCollection (models.Mongo res.1.1) = [acl_c1] /\
  res.2 = None.
Proof.
  cbv zeta.
  destruct (AddVerneMQACL_seeds_iff_fresh anyToken (freshAs "c1") noDefaultACL
              (env_of [] []) (env_of [] []) [] (token_request "tok-A")
              (freshAs "c1" (env_of [] []) "tok-A").1 eq_refl eq_refl)
    as ([Hfresh _] & _).
  split; [exact (Hfresh eq_refl)|]. split; reflexivity.
Defined.

(** C6, as stated, fails: the store holds the record of c1 under a unique
    index, a token verifies as a new one of c1, the insert is rejected as a
    duplicate, and the handler returns the invalid-credential error. *)
Lemma AddVerneMQACL_conflict_is_surfaced :
  ~ conflict_is_not_surfaced
      (models.AddProfileACL (models.Mongo env_c1) acl_c1).2
      (router.AddVerneMQACL anyToken (freshAs "c1") noDefaultACL env_c1 []
         (token_request "tok-A")).2.
Proof.
  unfold conflict_is_not_surfaced. intros H. apply H.
  - exists "c1". reflexivity.
  - reflexivity.
Qed.

(** C6, amended: when the insert of the seeding is rejected, as a duplicate
    or for any other reason, [AddVerneMQACL] writes no response and returns
    the error [CodeInvalidToken], the one it returns for an invalid
    credential. *)
Theorem AddVerneMQACL_insert_error {B : Type}
    (IsTokenValid : models.Env -> string -> bool * option error)
    (CheckAuthentication : models.Env -> string -> auth.Return * models.Env)
    (defaultACL : string -> list models.BsonValue * list models.BsonValue)
    (env env1 : models.Env) (w : router.ResponseWriter) (r : router.Request B)
    (ret : auth.Return) (e : error) :
  IsTokenValid env (router.Header_token r) = (true, None) ->
  CheckAuthentication env (router.Header_token r) = (ret, env1) ->
  auth.outcome ret = auth.Fresh ->
  let acl := models.NewVerneMQACL defaultACL (auth.ClientID (auth.infos ret))
               (auth.Username (auth.infos ret)) (auth.Password (auth.infos ret)) in
  (models.AddProfileACL (models.Mongo env1) acl).2 = Some e ->
  let res := router.AddVerneMQACL IsTokenValid CheckAuthentication defaultACL env w r in
  res.1.2 = w /\ res.2 = Some (errors_New CodeInvalidToken).
Proof.
  intros Htok Hauth Hfresh acl He. cbv zeta.
  rewrite (AddVerneMQACL_run IsTokenValid CheckAuthentication defaultACL
             env env1 w r ret Htok Hauth), Hfresh.
  cbv zeta. fold acl. now rewrite He.
Qed.

Lemma AddVerneMQACL_insert_error_witness :
  (models.AddProfileACL (models.Mongo env_c1) acl_c1).2 = Some (DuplicateKey "c1") /\
  let res := router.AddVerneMQACL anyToken (freshAs "c1") noDefaultACL env_c1 []
               (token_request "tok-A") in
  res.1.2 = [] /\ res.2 = Some (errors_New CodeInvalidToken).
Proof.
  split; [reflexivity|].
  exact (AddVerneMQACL_insert_error anyToken (freshAs "c1") noDefaultACL
           env_c1 env_c1 [] (token_request "tok-A")
           (freshAs "c1" env_c1 "tok-A").1 (DuplicateKey "c1")
           eq_refl eq_refl eq_refl eq_refl).
Defined.

(** *** The mappings of users *)

Lemma range_UserIDs_omap (redis : models.RedisInterface) (userIDs : list string) :
  forall mappings : list models.Mapping,
    router.range_UserIDs redis userIDs mappings
    = (mappings ++ omap (nonempty_mapping redis) userIDs)%list.
Proof.
  induction userIDs as [|u userIDs IH]; intros mappings; cbn [router.range_UserIDs].
  - cbn. now rewrite app_nil_r.
  - change (omap (nonempty_mapping redis) (u :: userIDs))
      with (match nonempty_mapping redis u with
            | Some y => y :: omap (nonempty_mapping redis) userIDs
            | None => omap (nonempty_mapping redis) userIDs
            end).
    assert (Hu : nonempty_mapping redis u
                 = let v := (models.HGet redis ("mapping:" +:+ u) "internalWaveUserID").1 in
                   if String.eqb v EmptyString then None
                   else Some {| models.OriginalUserID := u;
                                models.InternalWaveUserID := v |}) by reflexivity.
    rewrite Hu. clear Hu.
    destruct (models.HGet redis ("mapping:" +:+ u) "internalWaveUserID") as [v e].
    cbn [fst]. cbv zeta. destruct (String.eqb v EmptyString); cbn [negb].
    + apply IH.
    + rewrite IH. now rewrite <- app_assoc.
Qed.

Lemma nonempty_successful (redis : models.RedisInterface) (userID : string) :
  failed_lookup_is_empty redis ->
  nonempty_mapping redis userID = successful_mapping redis userID.
Proof.
  intros Hconv. unfold nonempty_mapping, successful_mapping.
  destruct (models.HGet redis ("mapping:" +:+ userID) "internalWaveUserID")
    as [v [e|]] eqn:E; [|reflexivity].
  cbn [fst]. now rewrite (Hconv _ _ _ _ E).
Qed.

(** C10: after the checks of the token and with a decoded body,
    [GetMappingForUsers] returns no error and writes one response with the
    success code.  Its payload holds, in the order of the request, one entry
    for each userID whose lookup returns a nonempty value; the error of the
    lookup is not looked at.  With a cache whose failed lookups return no
    bytes these are the userIDs whose lookup succeeds with a nonempty
    value: missing and empty mappings and failed lookups leave no entry. *)
Theorem GetMappingForUsers_mappings
    (IsTokenValid : models.Env -> string -> bool * option error)
    (CheckAuthentication : models.Env -> string -> auth.Return * models.Env)
    (env env1 : models.Env) (w : router.ResponseWriter)
    (r : router.Request utils.MappingRequestBody)
    (ret : auth.Return) (reqBody : utils.MappingRequestBody) :
  IsTokenValid env (router.Header_token r) = (true, None) ->
  CheckAuthentication env (router.Header_token r) = (ret, env1) ->
  auth.err ret = None ->
  router.Body r = Some reqBody ->
  router.GetMappingForUsers IsTokenValid CheckAuthentication env w r
  = (env1,
     (w ++ [(router.PMappings
               (omap (nonempty_mapping (models.Redis env1)) (utils.UserIDs reqBody)),
             router.NewEntry "MessagingService" "/profiles/mappings" CodeSuccess)])%list,
     None) /\
  (failed_lookup_is_empty (models.Redis env1) ->
   omap (nonempty_mapping (models.Redis env1)) (utils.UserIDs reqBody)
   = omap (successful_mapping (models.Redis env1)) (utils.UserIDs reqBody)).
Proof.
  intros Htok Hauth Herr Hbody. split.
  - unfold router.GetMappingForUsers. rewrite Htok. cbn [negb].
    rewrite Hauth, Herr, Hbody. now rewrite range_UserIDs_omap.
  - intros Hconv. induction (utils.UserIDs reqBody) as [|u us IH]; [reflexivity|].
    cbn [omap list_omap]. now rewrite IH, nonempty_successful.
Qed.

Lemma GetMappingForUsers_mappings_witness :
  let env := env_of [("a", "u2"); ("e", EmptyString)] [] in
  router.GetMappingForUsers anyToken (freshAs "u1") env []
    (mapping_request "tok" ["ghost"; "a"; "e"])
  = (env,
     [(router.PMappings
         [{| models.OriginalUserID := "a"; models.InternalWaveUserID := "u2" |}],
       router.NewEntry "MessagingService" "/profiles/mappings" CodeSuccess)],
     None).
Proof.
  exact (proj1 (GetMappingForUsers_mappings anyToken (freshAs "u1")
                  (env_of [("a", "u2"); ("e", EmptyString)] [])
                  (env_of [("a", "u2"); ("e", EmptyString)] []) []
                  (mapping_request "tok" ["ghost"; "a"; "e"])
                  (freshAs "u1" (env_of [("a", "u2"); ("e", EmptyString)] []) "tok").1
                  {| utils.UserIDs := ["ghost"; "a"; "e"] |}
                  eq_refl eq_refl eq_refl eq_refl)).
Defined.

(** ** More about the access-control store *)

Lemma UpdateOne_cases (db : models.MongoDB) (c : string) (u : list models.UpdateElem) :
  models.VerneMQACLCollection_UpdateOne db c u =
  match models.Faults db with
  | Some e :: _ => ((models.issue (models.VerneMQACL_UpdateOne c u) db).1, Some e)
  | _ => (models.with_acls (models.issue (models.VerneMQACL_UpdateOne c u) db).1
            (models.update_first c u (models.VerneMQACLCollection db)), None)
  end.
Proof.
  unfold models.VerneMQACLCollection_UpdateOne, models.issue.
  destruct (models.Faults db) as [|[e|] fs]; reflexivity.
Qed.



(** X2: the store takes a group as often as it is given one: two inserts of
    one group on a working connection both succeed and leave it twice. *)
Theorem AddGroupConversation_twice (db : models.MongoDB) (g : models.GroupConversation) :
  available 2 db ->
  let r1 := models.AddGroupConversation db g in
  let r2 := models.AddGroupConversation r1.1 g in
  r1.2 = None /\ r2.2 = None /\
  models.GroupConversationCollection r2.1
  = (models.GroupConversationCollection db ++ [g; g])%list.
Proof.
  intros Hav. cbv zeta.
  destruct (AddGroupConversation_available 1 db g Hav) as (He1 & Hav1 & Hg1).
  destruct (AddGroupConversation_available 0 _ g Hav1) as (He2 & _ & Hg2).
  repeat split; try assumption. rewrite Hg2, Hg1. now rewrite <- app_assoc.
Qed.

Lemma AddGroupConversation_twice_witness :
  let g := {| models.GroupConversationID := "g1"; models.Name := "team";
              models.Members := ["u1"; "u2"] |} in
  models.GroupConversationCollection
    (models.AddGroupConversation (models.AddGroupConversation (emptyDB true) g).1 g).1
  = [g; g].
Proof.
  cbv zeta.
  refine (proj2 (proj2 (AddGroupConversation_twice (emptyDB true) _ _))).
  unfold available. cbn. constructor.
Defined.

Lemma update_first_ClientIDs (c : string) (u : list models.UpdateElem)
    (docs : list models.VerneMQACL) :
  map models.ClientID (models.update_first c u docs) = map models.ClientID docs.
Proof.
  induction docs as [|d docs IH]; cbn; [reflexivity|].
  destruct (String.eqb (models.ClientID d) c); cbn.
  - now rewrite apply_update_ClientID.
  - now rewrite IH.
Qed.

Lemma UpdateOne_same_clients (db : models.MongoDB) (c : string)
    (u : list models.UpdateElem) :
  same_clients db (models.VerneMQACLCollection_UpdateOne db c u).1.
Proof.
  rewrite UpdateOne_cases. unfold same_clients, models.issue.
  destruct (models.Faults db) as [|[e|] fs]; cbn;
    rewrite ?update_first_ClientIDs; now repeat split.
Qed.

Lemma same_clients_trans (db1 db2 db3 : models.MongoDB) :
  same_clients db1 db2 -> same_clients db2 db3 -> same_clients db1 db3.
Proof.
  unfold same_clients. intros (? & ? & ?) (? & ? & ?). repeat split; congruence.
Qed.

Lemma range_Members_same_clients (path gid : string) (members : list string) :
  forall db : models.MongoDB,
    same_clients db (models.range_Members path db gid members).1.
Proof.
  induction members as [|m members IH]; intros db; cbn [models.range_Members].
  - now repeat split.
  - pose proof (UpdateOne_same_clients db m (models.group_update path gid m)) as H1.
    destruct (models.VerneMQACLCollection_UpdateOne db m _) as [db1 [e|]];
      cbn [fst] in *; [exact H1|].
    eapply same_clients_trans; [exact H1|apply IH].
Qed.

(** X3: the three updating methods never add or remove a record and never
    change a [client_id], a group or the index, whatever the connection
    does. *)
Theorem updates_keep_the_records (path : string) (db : models.MongoDB)
    (userID s : string) (g : models.GroupConversation) :
  same_clients db (models.AuthorizePublishing db userID s).1 /\
  same_clients db (models.UpdatePassHash db userID s).1 /\
  same_clients db (models.UpdateProfilesWithGroupACL path db g).1.
Proof.
  rewrite AuthorizePublishing_UpdateOne, UpdatePassHash_UpdateOne.
  repeat split; try apply UpdateOne_same_clients; apply range_Members_same_clients.
Qed.

(** X4: [UpdatePassHash] for a client with a record, on a working
    connection: the first record of the client gets the new hash and keeps
    its name and its ACLs, and the record every other client's updates would
    find is the one it was. *)
Theorem UpdatePassHash_sets_the_hash (db : models.MongoDB) (userID newPasshash : string)
    (d : models.VerneMQACL) :
  find_client userID (models.VerneMQACLCollection db) = Some d ->
  available 1 db ->
  let r := models.UpdatePassHash db userID newPasshash in
  r.2 = None /\
  find_client userID (models.VerneMQACLCollection r.1)
  = Some {| models.ClientID := models.ClientID d;
            models.Username := models.Username d;
            models.Passhash := newPasshash;
            models.PublishACL := models.PublishACL d;
            models.SubscribeACL := models.SubscribeACL d |} /\
  forall c : string,
    c <> userID ->
    find_client c (models.VerneMQACLCollection r.1)
    = find_client c (models.VerneMQACLCollection db).
Proof.
  intros Hd Hav. cbv zeta. rewrite UpdatePassHash_UpdateOne.
  destruct (UpdateOne_available 0 db userID [models.Set_passhash newPasshash] Hav)
    as (He & _ & _ & _ & _ & Hdocs).
  rewrite Hdocs. split; [exact He|]. split.
  - now rewrite (find_update_first_same _ _ _ _ Hd).
  - intros c Hc. now apply find_update_first_other.
Qed.

Lemma UpdatePassHash_sets_the_hash_witness :
  find_client "c1"
    (models.VerneMQACLCollection (models.UpdatePassHash db_c1 "c1" "hash2").1)
  = Some (models.NewVerneMQACL noDefaultACL "c1" "alice" "hash2").
Proof.
  refine (proj1 (proj2 (UpdatePassHash_sets_the_hash db_c1 "c1" "hash2" acl_c1 eq_refl _))).
  unfold available. cbn. constructor.
Defined.

Lemma update_first_set_set (c h1 h2 : string) (docs : list models.VerneMQACL) :
  models.update_first c [models.Set_passhash h2]
    (models.update_first c [models.Set_passhash h1] docs)
  = models.update_first c [models.Set_passhash h2] docs.
Proof.
  induction docs as [|d docs IH]; cbn [models.update_first]; [reflexivity|].
  destruct (String.eqb (models.ClientID d) c) eqn:E; cbn [models.update_first].
  - rewrite apply_update_ClientID, E. reflexivity.
  - now rewrite E, IH.
Qed.

(** X5: the hash is set, not accumulated: on a working connection two
    calls of [UpdatePassHash] for one client leave the collection a single
    call with the second hash leaves; with one hash twice, the collection of
    one call. *)
Theorem UpdatePassHash_last_wins (db : models.MongoDB) (userID h1 h2 : string) :
  available 2 db ->
  let r1 := models.UpdatePassHash db userID h1 in
  let r2 := models.UpdatePassHash r1.1 userID h2 in
  r1.2 = None /\ r2.2 = None /\
  models.VerneMQACLCollection r2.1
  = models.VerneMQACLCollection (models.UpdatePassHash db userID h2).1.
Proof.
  intros Hav. cbv zeta. rewrite !UpdatePassHash_UpdateOne.
  destruct (UpdateOne_available 1 db userID [models.Set_passhash h1] Hav)
    as (He1 & Hav1 & _ & _ & _ & Hd1).
  destruct (UpdateOne_available 0 _ userID [models.Set_passhash h2] Hav1)
    as (He2 & _ & _ & _ & _ & Hd2).
  destruct (UpdateOne_available 1 db userID [models.Set_passhash h2] Hav)
    as (_ & _ & _ & _ & _ & Hd).
  repeat split; try assumption.
  rewrite Hd2, Hd1, Hd. apply update_first_set_set.
Qed.

Lemma UpdatePassHash_last_wins_witness :
  models.VerneMQACLCollection
    (models.UpdatePassHash (models.UpdatePassHash db_c1 "c1" "hash2").1 "c1" "hash3").1
  = [models.NewVerneMQACL noDefaultACL "c1" "alice" "hash3"].
Proof.
  etransitivity.
  - refine (proj2 (proj2 (UpdatePassHash_last_wins db_c1 "c1" "hash2" "hash3" _))).
    unfold available. cbn. constructor.
  - reflexivity.
Defined.

Lemma update_first_split (c : string) (u : list models.UpdateElem)
    (pre post : list models.VerneMQACL) (d : models.VerneMQACL) :
  models.has_client c pre = false ->
  models.ClientID d = c ->
  models.update_first c u (pre ++ d :: post) = (pre ++ models.apply_update u d :: post)%list.
Proof.
  intros Hpre Hd. induction pre as [|p pre IH]; cbn.
  - rewrite Hd, String.eqb_refl. reflexivity.
  - cbn in Hpre. destruct (String.eqb (models.ClientID p) c); [discriminate|].
    cbn in Hpre. now rewrite (IH Hpre).
Qed.

(** X6: an update reaches the first record of the client and no other: where
    the collection holds more records of the client, the later ones, like
    every other document, stay as they are.  For [AuthorizePublishing] the
    first record gets the topic, a plain string, at the end of
    [publish_acl]. *)
Theorem AuthorizePublishing_first_record_only (db : models.MongoDB)
    (userID topic : string) (pre post : list models.VerneMQACL) (d : models.VerneMQACL) :
  models.VerneMQACLCollection db = (pre ++ d :: post)%list ->
  models.has_client userID pre = false ->
  models.ClientID d = userID ->
  available 1 db ->
  let r := models.AuthorizePublishing db userID topic in
  r.2 = None /\
  models.VerneMQACLCollection r.1
  = (pre ++ {| models.ClientID := models.ClientID d;
               models.Username := models.Username d;
               models.Passhash := models.Passhash d;
               models.PublishACL := models.PublishACL d ++ [models.BString topic];
               models.SubscribeACL := models.SubscribeACL d |} :: post)%list.
Proof.
  intros Hdocs Hpre Hd Hav. cbv zeta. rewrite AuthorizePublishing_UpdateOne.
  destruct (UpdateOne_available 0 db userID
              [models.Push_publish_acl (models.BString topic)] Hav)
    as (He & _ & _ & _ & _ & Hr).
  split; [exact He|]. rewrite Hr, Hdocs. now apply update_first_split.
Qed.

Lemma AuthorizePublishing_first_record_only_witness :
  let db := (models.AddProfileACL (models.AddProfileACL (emptyDB false) acl_c1).1 acl_c1).1 in
  models.VerneMQACLCollection (models.AuthorizePublishing db "c1" "news").1
  = [ {| models.ClientID := "c1"; models.Username := "alice";
         models.Passhash := "hash1";
         models.PublishACL := [models.BString "news"];
         models.SubscribeACL := [] |};
      acl_c1 ].
Proof.
  cbv zeta.
  refine (proj2 (AuthorizePublishing_first_record_only
                   (models.AddProfileACL
                      (models.AddProfileACL (emptyDB false) acl_c1).1 acl_c1).1
                   "c1" "news" [] [acl_c1] acl_c1 eq_refl eq_refl eq_refl _)).
  unfold available. cbn. constructor.
Defined.

Lemma range_Members_absent (path gid : string) (members : list string) :
  forall db : models.MongoDB,
    Forall (fun m => models.has_client m (models.VerneMQACLCollection db) = false) members ->
    models.VerneMQACLCollection (models.range_Members path db gid members).1
    = models.VerneMQACLCollection db.
Proof.
  induction members as [|m members IH]; intros db Habs; cbn [models.range_Members];
    [reflexivity|].
  apply Forall_cons in Habs as [Hm Habs].
  rewrite UpdateOne_cases. unfold models.issue.
  destruct (models.Faults db) as [|[e|] fs]; cbn [fst snd]; try reflexivity;
    rewrite IH; cbn; rewrite (update_first_absent _ _ _ Hm); try reflexivity; exact Habs.
Qed.

(** X7: a grant for a client without a record is a silent no-op.
    [AuthorizePublishing] for such a client and [UpdateProfilesWithGroupACL]
    for a group none of whose members has a record leave the collection as
    it was, whatever the connection does; on a working connection they
    return no error, and the fan-out still issues one update per member. *)
Theorem grants_without_record_are_noops (path : string) (db : models.MongoDB)
    (userID topic : string) (g : models.GroupConversation) :
  models.has_client userID (models.VerneMQACLCollection db) = false ->
  Forall (fun m => models.has_client m (models.VerneMQACLCollection db) = false)
    (models.Members g) ->
  let r := models.AuthorizePublishing db userID topic in
  let r' := models.UpdateProfilesWithGroupACL path db g in
  models.VerneMQACLCollection r.1 = models.VerneMQACLCollection db /\
  models.VerneMQACLCollection r'.1 = models.VerneMQACLCollection db /\
  (available 1 db -> r.2 = None) /\
  (available (length (models.Members g)) db ->
   r'.2 = None /\ length (issued db r'.1) = length (models.Members g)).
Proof.
  intros Hu Hg. cbv zeta. repeat split.
  - rewrite AuthorizePublishing_UpdateOne, UpdateOne_cases. unfold models.issue.
    destruct (models.Faults db) as [|[e|] fs]; cbn;
      now rewrite ?(update_first_absent _ _ _ Hu).
  - now apply range_Members_absent.
  - intros Hav. rewrite AuthorizePublishing_UpdateOne.
    now destruct (UpdateOne_available 0 db userID
                    [models.Push_publish_acl (models.BString topic)] Hav).
  - rewrite <- (Nat.add_0_r (length (models.Members g))) in H.
    now destruct (range_Members_available path (models.GroupConversationID g)
                    (models.Members g) 0 db H).
  - rewrite <- (Nat.add_0_r (length (models.Members g))) in H.
    destruct (range_Members_available path (models.GroupConversationID g)
                (models.Members g) 0 db H) as (_ & _ & _ & _ & Hc & _).
    unfold models.UpdateProfilesWithGroupACL.
    rewrite (issued_app _ _ _ Hc). unfold group_calls. now rewrite length_map.
Qed.

Lemma grants_without_record_are_noops_witness :
  models.VerneMQACLCollection
    (models.UpdateProfilesWithGroupACL "groups/" db_c1
       {| models.GroupConversationID := "g1"; models.Name := "team";
          models.Members := ["u1"; "u2"] |}).1
  = [acl_c1].
Proof.
  refine (proj1 (proj2 (grants_without_record_are_noops "groups/" db_c1 "u1" "news"
           {| models.GroupConversationID := "g1"; models.Name := "team";
              models.Members := ["u1"; "u2"] |} eq_refl _))).
  repeat constructor.
Defined.

(** The fan-out on a connection that lets [k] updates through and fails the
    next one. *)
Lemma range_Members_partial (path gid : string) (members : list string) :
  forall (k : nat) (db : models.MongoDB) (e : error) (faults : list (option error)),
    models.Faults db = (replicate k None ++ Some e :: faults)%list ->
    k < length members ->
    let r := models.range_Members path db gid members in
    r.2 = Some e /\
    models.Faults r.1 = faults /\
    models.GroupConversationCollection r.1 = models.GroupConversationCollection db /\
    models.Calls r.1 = (models.Calls db ++ group_calls path gid (take (S k) members))%list /\
    models.VerneMQACLCollection r.1
    = fan_out path gid (take k members) (models.VerneMQACLCollection db).
Proof.
  induction members as [|m members IH]; intros k db e faults Hf Hk; cbn in Hk; [lia|].
  cbv zeta. cbn [models.range_Members]. rewrite UpdateOne_cases, Hf.
  destruct k as [|k]; cbn [replicate app fst snd].
  - unfold models.issue. rewrite Hf. cbn. now repeat split.
  - specialize (IH k
      (models.with_acls (models.issue (models.VerneMQACL_UpdateOne m
                                         (models.group_update path gid m)) db).1
         (models.update_first m (models.group_update path gid m)
            (models.VerneMQACLCollection db)))
      e faults).
    cbv zeta in IH. unfold models.issue in IH |- *. rewrite Hf in IH |- *.
    cbn [replicate app tail fst snd models.Faults models.with_acls] in IH |- *.
    destruct (IH eq_refl ltac:(lia)) as (He & Hfs & Hg & Hc & Hd).
    repeat split; try assumption.
    rewrite Hc. cbn. now rewrite <- app_assoc.
Qed.

(** X8: nothing is rolled back.  When the connection lets the updates of
    the first [k] members through and fails the next one,
    [UpdateProfilesWithGroupACL] returns that error, the first [k] members
    keep their grants, and no update is issued for the members after the
    failing one. *)
Theorem UpdateProfilesWithGroupACL_no_rollback (path : string) (db : models.MongoDB)
    (g : models.GroupConversation) (k : nat) (e : error) (faults : list (option error)) :
  models.Faults db = (replicate k None ++ Some e :: faults)%list ->
  k < length (models.Members g) ->
  let r := models.UpdateProfilesWithGroupACL path db g in
  r.2 = Some e /\
  issued db r.1
  = group_calls path (models.GroupConversationID g) (take (S k) (models.Members g)) /\
  models.VerneMQACLCollection r.1
  = fan_out path (models.GroupConversationID g) (take k (models.Members g))
      (models.VerneMQACLCollection db).
Proof.
  intros Hf Hk. cbv zeta. unfold models.UpdateProfilesWithGroupACL.
  destruct (range_Members_partial path (models.GroupConversationID g) (models.Members g)
              k db e faults Hf Hk) as (He & _ & _ & Hc & Hd).
  repeat split; try assumption. now apply issued_app.
Qed.

Lemma UpdateProfilesWithGroupACL_no_rollback_witness :
  let db := {| models.VerneMQACLCollection :=
                 [acl_c1; models.NewVerneMQACL noDefaultACL "c2" "bob" "hash2"];
               models.GroupConversationCollection := [];
               models.UniqueClientID := true;
               models.Faults := [None; Some (ExternalError "connection reset")];
               models.Calls := [] |} in
  let r := models.UpdateProfilesWithGroupACL "groups/" db
             {| models.GroupConversationID := "g1"; models.Name := "team";
                models.Members := ["c1"; "c2"] |} in
  r.2 = Some (ExternalError "connection reset") /\
  models.VerneMQACLCollection r.1
  = [ granted "groups/" "g1" "c1" 1 acl_c1;
      models.NewVerneMQACL noDefaultACL "c2" "bob" "hash2" ].
Proof.
  cbv zeta.
  destruct (UpdateProfilesWithGroupACL_no_rollback "groups/"
              {| models.VerneMQACLCollection :=
                   [acl_c1; models.NewVerneMQACL noDefaultACL "c2" "bob" "hash2"];
                 models.GroupConversationCollection := [];
                 models.UniqueClientID := true;
                 models.Faults := [None; Some (ExternalError "connection reset")];
                 models.Calls := [] |}
              {| models.GroupConversationID := "g1"; models.Name := "team";
                 models.Members := ["c1"; "c2"] |}
              1 (ExternalError "connection reset") [] eq_refl)
    as (He & _ & Hd).
  - cbn. lia.
  - split; [exact He|]. etransitivity; [exact Hd|reflexivity].
Defined.

Lemma occurrences_not_elem (u : string) (members : list string) :
  u ∉ members -> occurrences u members = 0.
Proof.
  unfold occurrences. induction members as [|m ms IH]; intros Hnot; [reflexivity|].
  apply not_elem_of_cons in Hnot as [Hne Hnot]. cbn.
  destruct (String.eqb u m) eqn:E; [apply String.eqb_eq in E; congruence|].
  now apply IH.
Qed.

(** X9: the fan-out in general.  On a working connection
    [UpdateProfilesWithGroupACL] returns no error and issues one update per
    member, in the order of the list.  The record of a client then holds,
    behind what it held, the publish pattern of its own slot and the
    subscribe pattern of the group, once for each of its occurrences in the
    list; the record of a client that is no member is as it was. *)
Theorem UpdateProfilesWithGroupACL_grants (path : string) (db : models.MongoDB)
    (g : models.GroupConversation) :
  available (length (models.Members g)) db ->
  let r := models.UpdateProfilesWithGroupACL path db g in
  r.2 = None /\
  issued db r.1 = group_calls path (models.GroupConversationID g) (models.Members g) /\
  (forall (u : string) (d : models.VerneMQACL),
     find_client u (models.VerneMQACLCollection db) = Some d ->
     find_client u (models.VerneMQACLCollection r.1)
     = Some (granted path (models.GroupConversationID g) u
               (occurrences u (models.Members g)) d)) /\
  (forall (u : string) (d : models.VerneMQACL),
     u ∉ models.Members g ->
     find_client u (models.VerneMQACLCollection db) = Some d ->
     find_client u (models.VerneMQACLCollection r.1) = Some d).
Proof.
  intros Hav. cbv zeta. unfold models.UpdateProfilesWithGroupACL.
  rewrite <- (Nat.add_0_r (length (models.Members g))) in Hav.
  destruct (range_Members_available path (models.GroupConversationID g)
              (models.Members g) 0 db Hav) as (He & _ & _ & _ & Hc & Hd).
  split; [exact He|]. split; [now apply issued_app|].
  assert (Hfind : forall u d,
             find_client u (models.VerneMQACLCollection db) = Some d ->
             find_client u
               (models.VerneMQACLCollection
                  (models.range_Members path db (models.GroupConversationID g)
                     (models.Members g)).1)
             = Some (granted path (models.GroupConversationID g) u
                       (occurrences u (models.Members g)) d)).
  { intros u d Hu. rewrite Hd. now apply find_fan_out. }
  split; [exact Hfind|].
  intros u d Hnot Hu. rewrite (Hfind u d Hu).
  now rewrite (occurrences_not_elem _ _ Hnot), granted_0.
Qed.

Lemma UpdateProfilesWithGroupACL_grants_witness :
  find_client "c1"
    (models.VerneMQACLCollection
       (models.UpdateProfilesWithGroupACL "groups/" db_c1
          {| models.GroupConversationID := "g1"; models.Name := "team";
             models.Members := ["c1"; "c9"] |}).1)
  = Some {| models.ClientID := "c1"; models.Username := "alice";
            models.Passhash := "hash1";
            models.PublishACL := [models.BPattern "groups/g1/c1"];
            models.SubscribeACL := [models.BPattern "groups/g1/+"] |}.
Proof.
  etransitivity.
  - refine (proj1 (proj2 (proj2 (UpdateProfilesWithGroupACL_grants "groups/" db_c1
             {| models.GroupConversationID := "g1"; models.Name := "team";
                models.Members := ["c1"; "c9"] |} _))) "c1" acl_c1 eq_refl).
    unfold available. cbn. constructor.
  - reflexivity.
Defined.

(** ** More about the handlers *)

Section MoreHandlerFacts.

Variable IsTokenValid : models.Env -> string -> bool * option error.
Variable CheckAuthentication : models.Env -> string -> auth.Return * models.Env.
Variable defaultACL : string -> list models.BsonValue * list models.BsonValue.
Variable newID : string -> list string -> string.
Variable path : string.

Lemma AddVerneMQACL_responds {B : Type} (env : models.Env) (w : router.ResponseWriter)
    (r : router.Request B) :
  responds_iff_nil w
    (router.AddVerneMQACL IsTokenValid CheckAuthentication defaultACL env w r).
Proof.
  unfold responds_iff_nil, router.AddVerneMQACL, router.AddVerneMQACL_authenticated.
  destruct (IsTokenValid env (router.Header_token r)) as [[|] [e|]]; cbn [negb];
    try (right; split; [eexists|]; reflexivity).
  destruct (CheckAuthentication env (router.Header_token r)) as [ret env1].
  destruct (auth.err ret); [right; split; [eexists|]; reflexivity|].
  destruct (auth.wasTokenUpdated ret); [right; split; [eexists|]; reflexivity|].
  destruct (auth.wasCached ret); [right; split; [eexists|]; reflexivity|].
  destruct (models.AddProfileACL _ _) as [db [e|]].
  - right; split; [eexists|]; reflexivity.
  - left. split; [reflexivity|]. do 3 eexists. reflexivity.
Qed.

Lemma AddGroupConversation_responds (env : models.Env) (w : router.ResponseWriter)
    (r : router.Request (slice.Heap * utils.GroupConversationBody)) :
  responds_iff_nil w
    (router.AddGroupConversation IsTokenValid CheckAuthentication newID path env w r).
Proof.
  unfold responds_iff_nil, router.AddGroupConversation.
  destruct (IsTokenValid env (router.Header_token r)) as [[|] [e|]]; cbn [negb];
    try (right; split; [eexists|]; reflexivity).
  destruct (CheckAuthentication env (router.Header_token r)) as [ret env1].
  destruct (auth.err ret); [right; split; [eexists|]; reflexivity|].
  destruct (router.Body r) as [[h reqBody]|]; [|right; split; [eexists|]; reflexivity].
  destruct (router.build_group _ _ _ _ _) as [g|e];
    [|right; split; [eexists|]; reflexivity].
  destruct (models.AddGroupConversation _ _) as [db1 e1].
  destruct (models.UpdateProfilesWithGroupACL _ _ _) as [db2 [e|]].
  - right; split; [eexists|]; reflexivity.
  - left. split; [reflexivity|]. do 3 eexists. reflexivity.
Qed.

Lemma GetMappingForUsers_responds (env : models.Env) (w : router.ResponseWriter)
    (r : router.Request utils.MappingRequestBody) :
  responds_iff_nil w
    (router.GetMappingForUsers IsTokenValid CheckAuthentication env w r).
Proof.
  unfold responds_iff_nil, router.GetMappingForUsers.
  destruct (IsTokenValid env (router.Header_token r)) as [[|] [e|]]; cbn [negb];
    try (right; split; [eexists|]; reflexivity).
  destruct (CheckAuthentication env (router.Header_token r)) as [ret env1].
  destruct (auth.err ret); [right; split; [eexists|]; reflexivity|].
  destruct (router.Body r) as [reqBody|]; [|right; split; [eexists|]; reflexivity].
  left. split; [reflexivity|]. do 3 eexists. reflexivity.
Qed.

(** The errors of the member loop carry one code. *)
Lemma resolved_members_error (redis : models.RedisInterface) (c : string)
    (handles : list string) (e : error) :
  resolved_members redis c handles = inr e -> e = errors_New CodeInvalidJSON.
Proof.
  induction handles as [|m handles IH]; cbn [resolved_members]; [discriminate|].
  destruct (models.Exists redis ("mapping:" +:+ m)) as [[|] [e'|]];
    try (intros [= <-]; reflexivity); [|exact IH].
  destruct (models.HGet redis ("mapping:" +:+ m) "internalWaveUserID") as [v [e'|]];
    try (intros [= <-]; reflexivity).
  destruct (String.eqb v c); [exact IH|].
  destruct (resolved_members redis c handles) as [l|e'']; [discriminate|].
  intros [= <-]. now apply IH.
Qed.

(** A failing lookup anywhere in the list fails the loop. *)
Lemma resolved_members_fails (redis : models.RedisInterface) (c : string)
    (handles : list string) (m : string) :
  m ∈ handles -> lookup_fails redis m ->
  resolved_members redis c handles = inr (errors_New CodeInvalidJSON).
Proof.
  intros Hin Hfail.
  assert (H : exists e, resolved_members redis c handles = inr e).
  { induction handles as [|h handles IH]; [now apply elem_of_nil in Hin|].
    cbn [resolved_members].
    apply elem_of_cons in Hin as [<-|Hin].
    - destruct Hfail as [[e He]|[Hex [e He]]].
      + destruct (models.Exists redis ("mapping:" +:+ m)) as [[|] [e'|]];
          try discriminate; eauto.
      + rewrite Hex.
        destruct (models.HGet redis ("mapping:" +:+ m) "internalWaveUserID")
          as [v [e'|]]; try discriminate; eauto.
    - destruct (IH Hin) as [e He]. rewrite He.
      destruct (models.Exists redis ("mapping:" +:+ h)) as [[|] [e'|]]; eauto.
      destruct (models.HGet redis ("mapping:" +:+ h) "internalWaveUserID")
        as [v [e'|]]; eauto.
      destruct (String.eqb v c); eauto. }
  destruct H as [e He]. now rewrite He, (resolved_members_error _ _ _ _ He).
Qed.

End MoreHandlerFacts.

(** X10: each of the three handlers writes exactly one response, with the
    success code, when it returns no error, and writes nothing when it
    returns an error. *)
Theorem handlers_respond_iff_nil {B : Type}
    (IsTokenValid : models.Env -> string -> bool * option error)
    (CheckAuthentication : models.Env -> string -> auth.Return * models.Env)
    (defaultACL : string -> list models.BsonValue * list models.BsonValue)
    (newID : string -> list string -> string) (path : string)
    (env : models.Env) (w : router.ResponseWriter)
    (r : router.Request B)
    (rg : router.Request (slice.Heap * utils.GroupConversationBody))
    (rm : router.Request utils.MappingRequestBody) :
  responds_iff_nil w
    (router.AddVerneMQACL IsTokenValid CheckAuthentication defaultACL env w r) /\
  responds_iff_nil w
    (router.AddGroupConversation IsTokenValid CheckAuthentication newID path env w rg) /\
  responds_iff_nil w
    (router.GetMappingForUsers IsTokenValid CheckAuthentication env w rm).
Proof.
  split; [apply AddVerneMQACL_responds|].
  split; [apply AddGroupConversation_responds|apply GetMappingForUsers_responds].
Qed.

(** X11: a token the format check does not accept stops every handler
    before the authentication.  Whatever the authentication would do, the
    handler returns the error of the check, or [CodeInvalidToken] when the
    check only says no, and leaves the environment and the writer as they
    were. *)
Theorem handlers_reject_before_authenticating {B : Type}
    (IsTokenValid : models.Env -> string -> bool * option error)
    (CheckAuthentication : models.Env -> string -> auth.Return * models.Env)
    (defaultACL : string -> list models.BsonValue * list models.BsonValue)
    (newID : string -> list string -> string) (path : string)
    (env : models.Env) (w : router.ResponseWriter) (token : string)
    (valid : bool) (err : option error)
    (body : option B)
    (bodyg : option (slice.Heap * utils.GroupConversationBody))
    (bodym : option utils.MappingRequestBody) :
  IsTokenValid env token = (valid, err) ->
  valid = false \/ err <> None ->
  let rejected : router.Result :=
    (env, w, Some (match err with
                   | Some e => e
                   | None => errors_New CodeInvalidToken
                   end)) in
  router.AddVerneMQACL IsTokenValid CheckAuthentication defaultACL env w
    (request token body) = rejected /\
  router.AddGroupConversation IsTokenValid CheckAuthentication newID path env w
    (request token bodyg) = rejected /\
  router.GetMappingForUsers IsTokenValid CheckAuthentication env w
    (request token bodym) = rejected.
Proof.
  intros Htok Hbad. cbv zeta.
  unfold router.AddVerneMQACL, router.AddGroupConversation, router.GetMappingForUsers.
  cbn [request router.Header_token]. rewrite Htok.
  destruct err as [e|]; [now repeat split|].
  destruct Hbad as [->|Hbad]; [now repeat split|congruence].
Qed.

Lemma handlers_reject_before_authenticating_witness :
  router.AddVerneMQACL (fun _ _ => (false, None)) (freshAs "c1") noDefaultACL
    (env_of [] []) [] (token_request "not a token")
  = (env_of [] [], [], Some (errors_New CodeInvalidToken)).
Proof.
  exact (proj1 (handlers_reject_before_authenticating (B := unit)
           (fun _ _ => (false, None)) (freshAs "c1") noDefaultACL idOfName "groups/"
           (env_of [] []) [] "not a token" false None None None None
           eq_refl (or_introl eq_refl))).
Defined.

(** X12: the seeding that goes through.  For a Fresh outcome, on a working
    connection and a collection whose index, if it has one, holds no record
    of the client yet, [AddVerneMQACL] appends the record built from the
    three values of the authentication, answers with the clientID and the
    success code, and returns no error. *)
Theorem AddVerneMQACL_provisions {B : Type}
    (IsTokenValid : models.Env -> string -> bool * option error)
    (CheckAuthentication : models.Env -> string -> auth.Return * models.Env)
    (defaultACL : string -> list models.BsonValue * list models.BsonValue)
    (env env1 : models.Env) (w : router.ResponseWriter) (r : router.Request B)
    (ret : auth.Return) :
  IsTokenValid env (router.Header_token r) = (true, None) ->
  CheckAuthentication env (router.Header_token r) = (ret, env1) ->
  auth.outcome ret = auth.Fresh ->
  available 1 (models.Mongo env1) ->
  models.UniqueClientID (models.Mongo env1)
  && models.has_client (auth.ClientID (auth.infos ret))
       (models.VerneMQACLCollection (models.Mongo env1)) = false ->
  let res := router.AddVerneMQACL IsTokenValid CheckAuthentication defaultACL env w r in
  res.2 = None /\
  res.1.2 = (w ++ [(router.PString (auth.ClientID (auth.infos ret)),
                    router.NewEntry "MessagingService" "/helloworld" CodeSuccess)])%list /\
  models.VerneMQACLCollection (models.Mongo res.1.1)
  = (models.VerneMQACLCollection (models.Mongo env1)
     ++ [ {| models.ClientID := auth.ClientID (auth.infos ret);
             models.Username := auth.Username (auth.infos ret);
             models.Passhash := auth.Password (auth.infos ret);
             models.PublishACL := (defaultACL (auth.ClientID (auth.infos ret))).1;
             models.SubscribeACL := (defaultACL (auth.ClientID (auth.infos ret))).2 |} ])%list /\
  models.GroupConversationCollection (models.Mongo res.1.1)
  = models.GroupConversationCollection (models.Mongo env1) /\
  models.Redis res.1.1 = models.Redis env1.
Proof.
  intros Htok Hauth Hfresh Hav Hfree. cbv zeta.
  rewrite (AddVerneMQACL_run IsTokenValid CheckAuthentication defaultACL
             env env1 w r ret Htok Hauth), Hfresh.
  cbv zeta. rewrite AddProfileACL_InsertOne.
  pose proof (InsertOne_available 0 (models.Mongo env1)
                (models.NewVerneMQACL defaultACL (auth.ClientID (auth.infos ret))
                   (auth.Username (auth.infos ret)) (auth.Password (auth.infos ret)))
                Hav) as H.
  cbv zeta in H. cbn [models.NewVerneMQACL models.ClientID] in H.
  rewrite Hfree in H. destruct H as (_ & _ & Hg & _ & He & Hd).
  rewrite He. cbn [fst snd models.Mongo models.with_Mongo models.Redis].
  now repeat split.
Qed.

Lemma AddVerneMQACL_provisions_witness :
  let res := router.AddVerneMQACL anyToken (freshAs "c2") noDefaultACL env_c1 []
               (token_request "tok-B") in
  res.2 = None /\
  map models.ClientID (models.VerneMQACLCollection (models.Mongo res.1.1)) = ["c1"; "c2"].
Proof.
  cbv zeta.
  destruct (AddVerneMQACL_provisions anyToken (freshAs "c2") noDefaultACL
              env_c1 env_c1 [] (token_request "tok-B")
              (freshAs "c2" env_c1 "tok-B").1 eq_refl eq_refl eq_refl)
    as (He & _ & Hd & _).
  - unfold available. cbn. constructor.
  - reflexivity.
  - split; [exact He|]. now rewrite Hd.
Defined.

(** X13: a failing lookup of any candidate handle ends the group creation
    before the store is reached: the handler returns [CodeInvalidJSON],
    writes nothing, and the environment is as the authentication left it,
    whatever the other handles resolve to. *)
Theorem AddGroupConversation_lookup_error_aborts
    (IsTokenValid : models.Env -> string -> bool * option error)
    (CheckAuthentication : models.Env -> string -> auth.Return * models.Env)
    (newID : string -> list string -> string) (path : string)
    (env env1 : models.Env) (w : router.ResponseWriter)
    (r : router.Request (slice.Heap * utils.GroupConversationBody))
    (ret : auth.Return) (h : slice.Heap) (reqBody : utils.GroupConversationBody)
    (member : string) :
  IsTokenValid env (router.Header_token r) = (true, None) ->
  CheckAuthentication env (router.Header_token r) = (ret, env1) ->
  auth.err ret = None ->
  router.Body r = Some (h, reqBody) ->
  slice.wf h (utils.Members reqBody) ->
  member ∈ slice.elements h (utils.Members reqBody) ->
  lookup_fails (models.Redis env1) member ->
  router.AddGroupConversation IsTokenValid CheckAuthentication newID path env w r
  = (env1, w, Some (errors_New CodeInvalidJSON)).
Proof.
  intros Htok Hauth Herr Hbody Hwf Hin Hfail.
  rewrite (AddGroupConversation_run IsTokenValid CheckAuthentication newID path
             env env1 w r ret h reqBody Htok Hauth Herr Hbody Hwf).
  now rewrite (resolved_members_fails _ _ _ _ Hin Hfail).
Qed.

Lemma AddGroupConversation_lookup_error_aborts_witness :
  let env := {| models.Redis := cache_failing_on "b" [("a", "u2")];
                models.Mongo := emptyDB false |} in
  create_group env ["a"; "b"] = (env, [], Some (errors_New CodeInvalidJSON)).
Proof.
  cbv zeta.
  refine (AddGroupConversation_lookup_error_aborts anyToken (freshAs "u1") idOfName
            "groups/"
            {| models.Redis := cache_failing_on "b" [("a", "u2")];
               models.Mongo := emptyDB false |}
            {| models.Redis := cache_failing_on "b" [("a", "u2")];
               models.Mongo := emptyDB false |}
            [] (group_request "tok" "team" ["a"; "b"])
            (freshAs "u1" (env_of [] []) "tok").1
            [["a"; "b"]]
            {| utils.Name := "team";
               utils.Members := {| slice.ptr := 0; slice.len := 2; slice.cap := 2 |} |}
            "b" eq_refl eq_refl eq_refl eq_refl _ _ _).
  - exists ["a"; "b"]. repeat split; cbn; lia.
  - cbn. apply list_elem_of_further, list_elem_of_here.
  - left. eexists. reflexivity.
Defined.

Lemma resolved_members_succeed (redis : models.RedisInterface) (c : string)
    (handles : list string) :
  lookups_succeed redis handles ->
  resolved_members redis c handles = inl (known_members redis c handles).
Proof.
  unfold known_members, lookups_succeed.
  induction handles as [|m handles IH]; intros Hok; [reflexivity|].
  apply Forall_cons in Hok as [Hm Hok]. specialize (IH Hok).
  cbn [resolved_members omap list_omap]. unfold lookup_fails in Hm.
  destruct (models.Exists redis ("mapping:" +:+ m)) as [b [e|]].
  { exfalso. apply Hm. left. eexists. reflexivity. }
  cbn [fst]. destruct b; [|exact IH].
  destruct (models.HGet redis ("mapping:" +:+ m) "internalWaveUserID") as [v [e|]].
  { exfalso. apply Hm. right. split; [reflexivity|]. eexists. reflexivity. }
  cbn [fst List.filter]. rewrite IH.
  now destruct (String.eqb v c).
Qed.

(** X14: group creation when no lookup of a candidate handle fails, on a
    working connection.  The handler returns no error and stores one group
    under the name of the request; its members are the mappings of the
    candidate handles the cache knows, in the order of the handles and
    without the requester's clientID, followed by the requester. *)
Theorem AddGroupConversation_known_members
    (IsTokenValid : models.Env -> string -> bool * option error)
    (CheckAuthentication : models.Env -> string -> auth.Return * models.Env)
    (newID : string -> list string -> string) (path : string)
    (env env1 : models.Env) (w : router.ResponseWriter)
    (r : router.Request (slice.Heap * utils.GroupConversationBody))
    (ret : auth.Return) (h : slice.Heap) (reqBody : utils.GroupConversationBody) :
  IsTokenValid env (router.Header_token r) = (true, None) ->
  CheckAuthentication env (router.Header_token r) = (ret, env1) ->
  auth.err ret = None ->
  router.Body r = Some (h, reqBody) ->
  slice.wf h (utils.Members reqBody) ->
  lookups_succeed (models.Redis env1) (slice.elements h (utils.Members reqBody)) ->
  let clientID := auth.ClientID (auth.infos ret) in
  let members :=
    (known_members (models.Redis env1) clientID
       (slice.elements h (utils.Members reqBody)) ++ [clientID])%list in
  available (S (length members)) (models.Mongo env1) ->
  let res := router.AddGroupConversation IsTokenValid CheckAuthentication newID path
               env w r in
  res.2 = None /\
  models.GroupConversationCollection (models.Mongo res.1.1)
  = (models.GroupConversationCollection (models.Mongo env1)
     ++ [ {| models.GroupConversationID := newID (utils.Name reqBody) members;
             models.Name := utils.Name reqBody;
             models.Members := members |} ])%list.
Proof.
  intros Htok Hauth Herr Hbody Hwf Hok clientID members Hav. cbv zeta.
  rewrite (AddGroupConversation_run IsTokenValid CheckAuthentication newID path
             env env1 w r ret h reqBody Htok Hauth Herr Hbody Hwf).
  rewrite (resolved_members_succeed _ _ _ Hok). cbv zeta.
  fold clientID. fold members.
  set (g := models.NewGroupConversation newID (utils.Name reqBody) members).
  destruct (AddGroupConversation_available (length members) (models.Mongo env1) g Hav)
    as (_ & Hav1 & Hg1).
  unfold models.UpdateProfilesWithGroupACL.
  rewrite <- (Nat.add_0_r (length members)) in Hav1.
  destruct (range_Members_available path (models.GroupConversationID g)
              (models.Members g) 0 _ Hav1) as (He2 & _ & _ & Hg2 & _).
  rewrite He2. cbn [fst snd models.Mongo models.with_Mongo].
  split; [reflexivity|]. now rewrite Hg2, Hg1.
Qed.

Lemma AddGroupConversation_known_members_witness :
  let res := create_group (env_of [("a", "u2"); ("b", "u1"); ("c", "u3")] [])
               ["c"; "ghost"; "b"; "a"] in
  res.2 = None /\
  map models.Members (models.GroupConversationCollection (models.Mongo res.1.1))
  = [["u3"; "u2"; "u1"]].
Proof.
  cbv zeta.
  destruct (AddGroupConversation_known_members anyToken (freshAs "u1") idOfName "groups/"
              (env_of [("a", "u2"); ("b", "u1"); ("c", "u3")] [])
              (env_of [("a", "u2"); ("b", "u1"); ("c", "u3")] [])
              [] (group_request "tok" "team" ["c"; "ghost"; "b"; "a"])
              (freshAs "u1" (env_of [] []) "tok").1
              [["c"; "ghost"; "b"; "a"]]
              {| utils.Name := "team";
                 utils.Members := {| slice.ptr := 0; slice.len := 4; slice.cap := 4 |} |}
              eq_refl eq_refl eq_refl eq_refl)
    as (He & Hg).
  - exists ["c"; "ghost"; "b"; "a"]. repeat split; cbn; lia.
  - repeat constructor; intros [[e He]|[Hex [e He]]]; vm_compute in *; discriminate.
  - unfold available. cbn. constructor.
  - split; [exact He|]. unfold create_group. now rewrite Hg.
Defined.

(** X15: a group whose fan-out fails stays stored.  When the insert of the
    group goes through, the updates of the first [k] members go through and
    the next one fails, the handler returns [CodeInvalidToken] and writes
    nothing, while the group is in the store and the first [k] members keep
    their grants. *)
Theorem AddGroupConversation_grant_failure_keeps_group
    (IsTokenValid : models.Env -> string -> bool * option error)
    (CheckAuthentication : models.Env -> string -> auth.Return * models.Env)
    (newID : string -> list string -> string) (path : string)
    (env env1 : models.Env) (w : router.ResponseWriter)
    (r : router.Request (slice.Heap * utils.GroupConversationBody))
    (ret : auth.Return) (h : slice.Heap) (reqBody : utils.GroupConversationBody)
    (l : list string) (k : nat) (e : error) (faults : list (option error)) :
  IsTokenValid env (router.Header_token r) = (true, None) ->
  CheckAuthentication env (router.Header_token r) = (ret, env1) ->
  auth.err ret = None ->
  router.Body r = Some (h, reqBody) ->
  slice.wf h (utils.Members reqBody) ->
  resolved_members (models.Redis env1) (auth.ClientID (auth.infos ret))
    (slice.elements h (utils.Members reqBody)) = inl l ->
  models.Faults (models.Mongo env1) = (replicate (S k) None ++ Some e :: faults)%list ->
  k <= length l ->
  let g := models.NewGroupConversation newID (utils.Name reqBody)
             (l ++ [auth.ClientID (auth.infos ret)]) in
  let res := router.AddGroupConversation IsTokenValid CheckAuthentication newID path
               env w r in
  res.2 = Some (errors_New CodeInvalidToken) /\
  res.1.2 = w /\
  models.GroupConversationCollection (models.Mongo res.1.1)
  = (models.GroupConversationCollection (models.Mongo env1) ++ [g])%list /\
  models.VerneMQACLCollection (models.Mongo res.1.1)
  = fan_out path (models.GroupConversationID g) (take k (models.Members g))
      (models.VerneMQACLCollection (models.Mongo env1)).
Proof.
  intros Htok Hauth Herr Hbody Hwf Hres Hf Hk. cbv zeta.
  rewrite (AddGroupConversation_run IsTokenValid CheckAuthentication newID path
             env env1 w r ret h reqBody Htok Hauth Herr Hbody Hwf).
  rewrite Hres. cbv zeta.
  set (g := models.NewGroupConversation newID (utils.Name reqBody)
              (l ++ [auth.ClientID (auth.infos ret)])).
  destruct (AddGroupConversation_effect (models.Mongo env1) g) as (_ & Hd1 & _ & Hf1 & H1).
  rewrite Hf in Hf1, H1. cbn [replicate app tail] in Hf1, H1. destruct H1 as [_ Hg1].
  unfold models.UpdateProfilesWithGroupACL.
  destruct (range_Members_partial path (models.GroupConversationID g) (models.Members g)
              k _ e faults Hf1) as (He2 & _ & Hg2 & _ & Hd2).
  { cbn [g models.NewGroupConversation models.Members]. rewrite length_app. cbn. lia. }
  rewrite He2. cbn [fst snd models.Mongo models.with_Mongo].
  repeat split; try reflexivity.
  - now rewrite Hg2, Hg1.
  - now rewrite Hd2, Hd1.
Qed.

Lemma AddGroupConversation_grant_failure_keeps_group_witness :
  let res := create_group
               (env_of [("a", "u2")] [None; None; Some (ExternalError "connection reset")])
               ["a"] in
  res.2 = Some (errors_New CodeInvalidToken) /\
  map models.Members (models.GroupConversationCollection (models.Mongo res.1.1))
  = [["u2"; "u1"]].
Proof.
  cbv zeta.
  destruct (AddGroupConversation_grant_failure_keeps_group anyToken (freshAs "u1")
              idOfName "groups/"
              (env_of [("a", "u2")] [None; None; Some (ExternalError "connection reset")])
              (env_of [("a", "u2")] [None; None; Some (ExternalError "connection reset")])
              [] (group_request "tok" "team" ["a"])
              (freshAs "u1" (env_of [] []) "tok").1
              [["a"]]
              {| utils.Name := "team";
                 utils.Members := {| slice.ptr := 0; slice.len := 1; slice.cap := 1 |} |}
              ["u2"] 1 (ExternalError "connection reset") []
              eq_refl eq_refl eq_refl eq_refl)
    as (He & _ & Hg & _).
  - exists ["a"]. repeat split; cbn; lia.
  - reflexivity.
  - reflexivity.
  - cbn. lia.
  - split; [exact He|]. unfold create_group. now rewrite Hg.
Defined.

(** X16: [AddGroupConversation] and [GetMappingForUsers] do not look at the
    two flags of the authentication.  Two authentications that return the
    same error, the same clientID and the same environment give the same
    result, whatever [wasCached] and [wasTokenUpdated] say: a Cached or
    Updated token creates the group as a new one does. *)
Theorem group_handlers_ignore_the_flags
    (IsTokenValid : models.Env -> string -> bool * option error)
    (CheckAuthentication CheckAuthentication' :
       models.Env -> string -> auth.Return * models.Env)
    (newID : string -> list string -> string) (path : string)
    (env env1 : models.Env) (w : router.ResponseWriter) (token : string)
    (bodyg : option (slice.Heap * utils.GroupConversationBody))
    (bodym : option utils.MappingRequestBody)
    (ret ret' : auth.Return) :
  CheckAuthentication env token = (ret, env1) ->
  CheckAuthentication' env token = (ret', env1) ->
  auth.err ret = auth.err ret' ->
  auth.ClientID (auth.infos ret) = auth.ClientID (auth.infos ret') ->
  router.AddGroupConversation IsTokenValid CheckAuthentication newID path env w
    (request token bodyg)
  = router.AddGroupConversation IsTokenValid CheckAuthentication' newID path env w
      (request token bodyg) /\
  router.GetMappingForUsers IsTokenValid CheckAuthentication env w (request token bodym)
  = router.GetMappingForUsers IsTokenValid CheckAuthentication' env w
      (request token bodym).
Proof.
  intros Ha Ha' Herr Hc.
  unfold router.AddGroupConversation, router.GetMappingForUsers.
  cbn [request router.Header_token router.Body].
  destruct (IsTokenValid env token) as [[|] [e|]]; cbn [negb]; try (split; reflexivity).
  rewrite Ha, Ha', Herr, Hc. split; reflexivity.
Qed.

Lemma group_handlers_ignore_the_flags_witness :
  router.AddGroupConversation anyToken (flaggedAs true true "u1") idOfName "groups/"
    (env_of [("a", "u2")] []) [] (group_request "tok" "team" ["a"])
  = create_group (env_of [("a", "u2")] []) ["a"].
Proof.
  exact (proj1 (group_handlers_ignore_the_flags anyToken
           (flaggedAs true true "u1") (freshAs "u1") idOfName "groups/"
           (env_of [("a", "u2")] []) (env_of [("a", "u2")] []) [] "tok"
           (router.Body (group_request "tok" "team" ["a"])) None
           (flaggedAs true true "u1" (env_of [] []) "tok").1
           (freshAs "u1" (env_of [] []) "tok").1
           eq_refl eq_refl eq_refl eq_refl)).
Defined.

Lemma omap_length_le {A B : Type} (f : A -> option B) (l : list A) :
  length (omap f l) <= length l.
Proof.
  induction l as [|x l IH]; cbn; [lia|]. destruct (f x); cbn; lia.
Qed.

(** X17: the payload of [GetMappingForUsers].  After the checks of the
    token and with a decoded body the handler answers with a list of
    mappings that has no more entries than the request has userIDs; a
    mapping is in the list exactly when its user is one of the request and
    its value is the nonempty value the lookup of that user returns. *)
Theorem GetMappingForUsers_entries
    (IsTokenValid : models.Env -> string -> bool * option error)
    (CheckAuthentication : models.Env -> string -> auth.Return * models.Env)
    (env env1 : models.Env) (w : router.ResponseWriter)
    (r : router.Request utils.MappingRequestBody)
    (ret : auth.Return) (reqBody : utils.MappingRequestBody) :
  IsTokenValid env (router.Header_token r) = (true, None) ->
  CheckAuthentication env (router.Header_token r) = (ret, env1) ->
  auth.err ret = None ->
  router.Body r = Some reqBody ->
  exists mappings : list models.Mapping,
    (router.GetMappingForUsers IsTokenValid CheckAuthentication env w r).1.2
    = (w ++ [(router.PMappings mappings,
              router.NewEntry "MessagingService" "/profiles/mappings" CodeSuccess)])%list /\
    length mappings <= length (utils.UserIDs reqBody) /\
    forall m : models.Mapping,
      m ∈ mappings <->
      models.OriginalUserID m ∈ utils.UserIDs reqBody /\
      models.InternalWaveUserID m
      = (models.HGet (models.Redis env1) ("mapping:" +:+ models.OriginalUserID m)
           "internalWaveUserID").1 /\
      models.InternalWaveUserID m <> EmptyString.
Proof.
  intros Htok Hauth Herr Hbody.
  exists (omap (nonempty_mapping (models.Redis env1)) (utils.UserIDs reqBody)).
  split; [|split].
  - unfold router.GetMappingForUsers. rewrite Htok. cbn [negb].
    rewrite Hauth, Herr, Hbody. now rewrite range_UserIDs_omap.
  - apply omap_length_le.
  - intros m. rewrite list_elem_of_omap. unfold nonempty_mapping. split.
    + intros (u & Hu & Hm).
      destruct (String.eqb _ EmptyString) eqn:E; [discriminate|].
      injection Hm as <-. cbn. apply String.eqb_neq in E. now repeat split.
    + intros (Hu & Hv & Hne). exists (models.OriginalUserID m). split; [exact Hu|].
      rewrite <- Hv. apply String.eqb_neq in Hne. rewrite Hne. now destruct m.
Qed.

Lemma GetMappingForUsers_entries_witness :
  exists mappings : list models.Mapping,
    (router.GetMappingForUsers anyToken (freshAs "u1") (env_of [("a", "u2")] []) []
       (mapping_request "tok" ["a"; "ghost"; "a"])).1.2
    = [(router.PMappings mappings,
        router.NewEntry "MessagingService" "/profiles/mappings" CodeSuccess)] /\
    length mappings <= 3.
Proof.
  destruct (GetMappingForUsers_entries anyToken (freshAs "u1")
              (env_of [("a", "u2")] []) (env_of [("a", "u2")] []) []
              (mapping_request "tok" ["a"; "ghost"; "a"])
              (freshAs "u1" (env_of [] []) "tok").1
              {| utils.UserIDs := ["a"; "ghost"; "a"] |}
              eq_refl eq_refl eq_refl eq_refl)
    as (ms & Hw & Hlen & _).
  exists ms. split; [exact Hw|exact Hlen].
Defined.

(** X18: the group a request creates depends on the members the decoded
    body lists, not on the array that holds them: two bodies with the same
    name and the same elements, whatever their backing arrays and spare
    capacities, give the same result.  The filter in place does not let the
    layout of the slice show. *)
Theorem AddGroupConversation_ignores_capacity
    (IsTokenValid : models.Env -> string -> bool * option error)
    (CheckAuthentication : models.Env -> string -> auth.Return * models.Env)
    (newID : string -> list string -> string) (path : string)
    (env : models.Env) (w : router.ResponseWriter) (token : string)
    (h h' : slice.Heap) (reqBody reqBody' : utils.GroupConversationBody) :
  slice.wf h (utils.Members reqBody) ->
  slice.wf h' (utils.Members reqBody') ->
  slice.elements h (utils.Members reqBody) = slice.elements h' (utils.Members reqBody') ->
  utils.Name reqBody = utils.Name reqBody' ->
  router.AddGroupConversation IsTokenValid CheckAuthentication newID path env w
    (request token (Some (h, reqBody)))
  = router.AddGroupConversation IsTokenValid CheckAuthentication newID path env w
      (request token (Some (h', reqBody'))).
Proof.
  intros Hwf Hwf' Hel Hname. unfold router.AddGroupConversation.
  cbn [request router.Header_token router.Body].
  destruct (IsTokenValid env token) as [[|] [e|]]; cbn [negb]; try reflexivity.
  destruct (CheckAuthentication env token) as [ret env1].
  destruct (auth.err ret); [reflexivity|].
  rewrite (build_group_refines _ _ newID h reqBody Hwf).
  rewrite (build_group_refines _ _ newID h' reqBody' Hwf').
  now rewrite Hel, Hname.
Qed.

Lemma AddGroupConversation_ignores_capacity_witness :
  create_group (env_of [("a", "u2")] []) ["a"; "b"]
  = router.AddGroupConversation anyToken (freshAs "u1") idOfName "groups/"
      (env_of [("a", "u2")] []) []
      (request "tok"
         (Some ([["x"]; ["a"; "b"; "y"; "z"]],
                {| utils.Name := "team";
                   utils.Members :=
                     {| slice.ptr := 1; slice.len := 2; slice.cap := 4 |} |}))).
Proof.
  refine (AddGroupConversation_ignores_capacity anyToken (freshAs "u1") idOfName "groups/"
            (env_of [("a", "u2")] []) [] "tok"
            [["a"; "b"]] [["x"]; ["a"; "b"; "y"; "z"]]
            {| utils.Name := "team";
               utils.Members := {| slice.ptr := 0; slice.len := 2; slice.cap := 2 |} |}
            {| utils.Name := "team";
               utils.Members := {| slice.ptr := 1; slice.len := 2; slice.cap := 4 |} |}
            _ _ eq_refl eq_refl).
  - exists ["a"; "b"]. repeat split; cbn; lia.
  - exists ["a"; "b"; "y"; "z"]. repeat split; cbn; lia.
Defined.

(** ** The wrapper of the handlers *)




(** X21: what the client of a wrapped [AddVerneMQACL] receives, after the
    checks of the token: the clientID with the success code when a Fresh
    token is seeded, and otherwise the response of the wrapper, with
    [CodeAlreadyExists] for a Cached token, [CodeUpdated] for an Updated
    one, and [CodeInvalidToken] for a failed authentication and for a
    seeding the store rejects. *)
Theorem CustomHandle_AddVerneMQACL_answers {B : Type}
    (IsTokenValid : models.Env -> string -> bool * option error)
    (CheckAuthentication : models.Env -> string -> auth.Return * models.Env)
    (defaultACL : string -> list models.BsonValue * list models.BsonValue)
    (env env1 : models.Env) (w : router.ResponseWriter) (r : router.Request B)
    (ret : auth.Return) :
  IsTokenValid env (router.Header_token r) = (true, None) ->
  CheckAuthentication env (router.Header_token r) = (ret, env1) ->
  let rejected (code : Code) :=
    router.Rejected "MessagingService" "/helloworld" (errors_New code) in
  let seeding :=
    models.AddProfileACL (models.Mongo env1)
      (models.NewVerneMQACL defaultACL (auth.ClientID (auth.infos ret))
         (auth.Username (auth.infos ret)) (auth.Password (auth.infos ret))) in
  (router.CustomHandle env
     [router.AddVerneMQACL IsTokenValid CheckAuthentication defaultACL] w r).2
  = (router.handled w
     ++ [ match auth.outcome ret with
          | auth.Failed => rejected CodeInvalidToken
          | auth.Updated => rejected CodeUpdated
          | auth.Cached => rejected CodeAlreadyExists
          | auth.Fresh =>
              match seeding.2 with
              | Some _ => rejected CodeInvalidToken
              | None =>
                  router.Handled (router.PString (auth.ClientID (auth.infos ret)))
                    (router.NewEntry "MessagingService" "/helloworld" CodeSuccess)
              end
          end ])%list.
Proof.
  intros Htok Hauth. cbv zeta. cbn [router.CustomHandle].
  rewrite (AddVerneMQACL_run IsTokenValid CheckAuthentication defaultACL
             env env1 w r ret Htok Hauth).
  destruct (auth.outcome ret); try reflexivity.
  cbv zeta. destruct (models.AddProfileACL _ _) as [db [e|]]; cbn [fst snd].
  - reflexivity.
  - unfold router.handled, router.WriteResponse. now rewrite map_app.
Qed.

Lemma CustomHandle_AddVerneMQACL_answers_witness :
  (router.CustomHandle env_c1
     [router.AddVerneMQACL anyToken (flaggedAs true false "c1") noDefaultACL] []
     (token_request "tok-A")).2
  = [router.Rejected "MessagingService" "/helloworld" (errors_New CodeAlreadyExists)].
Proof.
  exact (CustomHandle_AddVerneMQACL_answers anyToken (flaggedAs true false "c1")
           noDefaultACL env_c1 env_c1 [] (token_request "tok-A")
           (flaggedAs true false "c1" env_c1 "tok-A").1 eq_refl eq_refl).
Defined.



